(** * nbr: bootstrap scripts and the example plugin

    A shallow embedding of the three Python files of the repository,

      - [src/cli/nbfile/bot.py]     (the production entry point),
      - [src/cli/templates/bot.py]  (the template entry point),
      - [src/cli/templates/hello.py] (the example command plugin),

    and the properties their specification states about them.

    The scripts are glue over the NoneBot framework.  Everything the
    framework and the Python runtime do (importing a module, registering an
    adapter, opening and parsing the manifest, loading plugins) is kept
    abstract in the class [Runtime]; what the scripts themselves do (the
    subscripts into the manifest, the [for] loop, the [try]/[except
    Exception], the f-string of the log line, the [if msg:] of the handler)
    is written out. *)

From Stdlib Require Import String Ascii List ZArith Bool Arith Lia.
Import ListNotations.
Open Scope string_scope.
Set Warnings "-register-all".

(** ** Python values, exceptions and the operations the scripts use *)

Module Py.

(** What [tomllib.load] can return: strings, integers, floats, booleans,
    dates and times, arrays and tables.  A float and a date/time are kept
    as the text of their TOML literal: no script looks inside them.  A
    table is an association list in document order (a Python [dict] keeps
    insertion order, and iterating it yields the keys in that order). *)
Inductive toml : Type :=
| TStr (s : string)
| TInt (z : Z)
| TFloat (literal : string)
| TBool (b : bool)
| TDateTime (literal : string)
| TArray (items : list toml)
| TTable (entries : list (string * toml)).

(** Exceptions.  [KeyError] and [TypeError] are the two the scripts' own
    subscripts and iterations raise; [Foreign] is anything raised by the
    framework or the runtime, with the one fact [except Exception] depends
    on: whether its class derives from [Exception] ([SystemExit],
    [KeyboardInterrupt] and the like do not). *)
Inductive exn : Type :=
| KeyError (key : string)
| TypeError (what : string)
| Foreign (derives_Exception : bool) (cls text : string).

Definition is_Exception (e : exn) : bool :=
  match e with
  | KeyError _ | TypeError _ => true
  | Foreign b _ _ => b
  end.

Inductive result (A : Type) : Type :=
| Ok (a : A)
| Raise (e : exn).
Arguments Ok {A} a.
Arguments Raise {A} e.

Definition is_ok {A} (r : result A) : bool :=
  match r with Ok _ => true | Raise _ => false end.

(** [d[k]] on a dict: the first (and, in a parsed TOML table, only) entry
    for [k]. *)
Fixpoint assoc (k : string) (entries : list (string * toml)) : option toml :=
  match entries with
  | [] => None
  | (k', v) :: rest => if String.eqb k k' then Some v else assoc k rest
  end.

(** [v[k]] with a string key [k]: a lookup in a table, [KeyError] when the
    key is absent; a [TypeError] on every other value (a [str] or a [list]
    wants integer indices, the scalars are not subscriptable). *)
Definition getitem (v : toml) (k : string) : result toml :=
  match v with
  | TTable entries =>
      match assoc k entries with
      | Some x => Ok x
      | None => Raise (KeyError k)
      end
  | TStr _ => Raise (TypeError "string indices must be integers")
  | TArray _ => Raise (TypeError "list indices must be integers or slices")
  | TInt _ | TFloat _ | TBool _ | TDateTime _ =>
      Raise (TypeError "object is not subscriptable")
  end.

Definition chars (s : string) : list toml :=
  map (fun c => TStr (String c EmptyString)) (list_ascii_of_string s).

(** What [for x in v] (and [*v] in a call) iterates over: the items of an
    array, the keys of a table, the characters of a string; the scalars
    are not iterable. *)
Definition iterate (v : toml) : result (list toml) :=
  match v with
  | TArray items => Ok items
  | TTable entries => Ok (map (fun kv => TStr (fst kv)) entries)
  | TStr s => Ok (chars s)
  | TInt _ | TFloat _ | TBool _ | TDateTime _ =>
      Raise (TypeError "object is not iterable")
  end.

(** Truth value of a [str]: false exactly for the empty string. *)
Definition truthy (s : string) : bool :=
  match s with EmptyString => false | String _ _ => true end.

End Py.
Export Py.

(** ** The example plugin, [templates/hello.py] *)

Module Hello.

(** A framework message is a sequence of segments, text or not. *)
Inductive segment : Type :=
| Text (s : string)
| Media (kind data : string).

Definition Message : Type := list segment.

(** Modelled from the spec: the framework's text extraction, "returns
    remaining plain text": the text segments of the message, joined. *)
Fixpoint extract_plain_text (m : Message) : string :=
  match m with
  | [] => ""
  | Text s :: rest => s ++ extract_plain_text rest
  | Media _ _ :: rest => extract_plain_text rest
  end.

(** Calls a handler makes on its matcher. *)
Inductive call : Type :=
| Finish (message : string).

(** A handler run: the calls made, in order, and how the coroutine ended. *)
Definition H (A : Type) : Type := (list call * result A)%type.

Definition FinishedException : exn :=
  Foreign true "nonebot.exception.FinishedException" "".

(** [await matcher.finish(message)]: the reply is sent and the handler is
    ended by [FinishedException]; nothing after it runs. *)
Definition finish (message : string) : H unit :=
  ([Finish message], Raise FinishedException).

(** [hello_handler], lines 15-20. *)
Definition hello_handler (args : Message) : H unit :=
  let msg := extract_plain_text args in
  if truthy msg then finish ("Hello, " ++ msg ++ "!")
  else finish "Hello, World!".

(** The replies a run sent. *)
Definition replies {A} (r : H A) : list string :=
  map (fun c => match c with Finish m => m end) (fst r).

Definition finish_calls {A} (r : H A) : nat := length (fst r).

(** Modelled from the spec: the framework's command registration, "a
    command-registration operation returning a handler-matcher object":
    the matcher answers to its command and to each alias. *)
Record Matcher : Type := mkMatcher {
  commands : list string;
  priority : Z;
  block : bool
}.

Definition on_command (cmd : string) (aliases : list string)
    (priority : Z) (block : bool) : Matcher :=
  mkMatcher (cmd :: aliases) priority block.

(** Line 12. *)
Definition hello : Matcher := on_command "hello" ["hi"] 10 true.

Definition triggers (m : Matcher) (phrase : string) : bool :=
  existsb (String.eqb phrase) (commands m).

(** An incoming command: the trigger phrase it was sent with and the
    message that followed it.  [hello] has the one handler of line 14, run
    on the trailing message when the phrase is one of the matcher's. *)
Definition dispatch (phrase : string) (trailing : Message) : option (H unit) :=
  if triggers hello phrase then Some (hello_handler trailing) else None.

End Hello.

(** ** The entry points, [nbfile/bot.py] and [templates/bot.py] *)

Module Bot.

(** The Python runtime and the framework, as the scripts see them.  Each
    operation takes the outside world and returns it changed, with a value
    or an exception. *)
Class Runtime : Type := {
  World : Type;
  FileObj : Type;
  PyModule : Type;
  AdapterCls : Type;
  Driver : Type;
  (** [nonebot.init()] and [nonebot.get_driver()] *)
  nonebot_init : World -> result unit * World;
  get_driver : World -> result Driver * World;
  (** [open(path, "rb")], the file's [__exit__], [tomllib.load(f)] *)
  py_open : string -> World -> result FileObj * World;
  file_close : FileObj -> World -> World;
  tomllib_load : FileObj -> World -> result toml * World;
  (** [importlib.import_module(name)] and [module.Adapter] *)
  import_module : toml -> World -> result PyModule * World;
  attr_Adapter : PyModule -> World -> result AdapterCls * World;
  (** [driver.register_adapter(cls)] *)
  register_adapter : Driver -> AdapterCls -> World -> result unit * World;
  (** [nonebot.load_builtin_plugins] on the unpacked names,
      [nonebot.load_from_toml(path)], [nonebot.run(...)] *)
  load_builtin_plugins : list toml -> World -> result unit * World;
  load_from_toml : string -> World -> result unit * World;
  nonebot_run : option string -> World -> result unit * World;
  (** [format(v, "")] of a value that is not a [str], and [str(e)] of an
      exception, as an f-string renders them *)
  format_value : toml -> string;
  exn_str : exn -> string
}.

Section Scripts.
Context {R : Runtime}.

(** What a run does that the properties talk about, in order. *)
Inductive event : Type :=
| EvTomlLoad                          (* [tomllib.load(f)] is called *)
| EvImport (name : toml)              (* [import_module(name)] is called *)
| EvRegisterCall (cls : AdapterCls)   (* [register_adapter(cls)] is called *)
| EvRegistered (cls : AdapterCls)     (* ... and returned *)
| EvLogError (message : string)       (* [logger.error(message)] *)
| EvLoadBuiltinPlugins (names : list toml)
| EvLoadFromToml (path : string)
| EvRun (app : option string).

(** The state of a run: the outside world, the events so far, and the
    contents of the object [tomllib.load] returned (the script's
    [pyproject]), so that a write to it would show. *)
Record state : Type := mkState {
  world : World;
  trace : list event;
  pyproject : option toml
}.

Definition Stmt (A : Type) : Type := state -> result A * state.

Definition ret {A} (a : A) : Stmt A := fun s => (Ok a, s).

Definition bind {A B} (m : Stmt A) (k : A -> Stmt B) : Stmt B :=
  fun s =>
    match m s with
    | (Ok a, s') => k a s'
    | (Raise e, s') => (Raise e, s')
    end.

(** An expression of the script that raises or gives a value. *)
Definition eval {A} (r : result A) : Stmt A := fun s => (r, s).

Definition emit (ev : event) : Stmt unit :=
  fun s => (Ok tt, mkState (world s) (trace s ++ [ev]) (pyproject s)).

(** A call into the runtime or the framework. *)
Definition extern {A} (op : World -> result A * World) : Stmt A :=
  fun s =>
    let (r, w) := op (world s) in
    (r, mkState w (trace s) (pyproject s)).

(** [try: body  except Exception as e: handler e]: an exception whose
    class does not derive from [Exception] passes through. *)
Definition try_except {A} (body : Stmt A) (handler : exn -> Stmt A) : Stmt A :=
  fun s =>
    match body s with
    | (Ok a, s') => (Ok a, s')
    | (Raise e, s') =>
        if is_Exception e then handler e s' else (Raise e, s')
    end.

(** [with open(path, "rb") as f: body f]: the file is closed on the way
    out, whether the body returned or raised. *)
Definition with_open {A} (path : string) (body : FileObj -> Stmt A) : Stmt A :=
  fun s =>
    match extern (py_open path) s with
    | (Ok f, s1) =>
        let (r, s2) := body f s1 in
        (r, mkState (file_close f (world s2)) (trace s2) (pyproject s2))
    | (Raise e, s1) => (Raise e, s1)
    end.

End Scripts.

Declare Scope py_scope.
Delimit Scope py_scope with py.
Notation "x <- m ;; k" := (bind m (fun x => k))
  (at level 61, m at next level, right associativity) : py_scope.
Notation "m ;; k" := (bind m (fun _ => k))
  (at level 61, right associativity) : py_scope.

Section Programs.
Context {R : Runtime}.
Local Open Scope py_scope.

(** A call into the framework, noted in the trace when it is made. *)
Definition call {A} (ev : event) (op : World -> result A * World) : Stmt A :=
  emit ev ;; extern op.

(** [{v}] in an f-string: a [str] as it is, anything else formatted. *)
Definition fstr (v : toml) : string :=
  match v with
  | TStr s => s
  | _ => format_value v
  end.

Definition logger_error (message : string) : Stmt unit :=
  emit (EvLogError message).

(** The [try] suite of the loop (nbfile 18-19, templates 19-20). *)
Definition try_body (driver : Driver) (adapter : toml) : Stmt unit :=
  name <- eval (getitem adapter "module_name") ;;
  adapter_module <- call (EvImport name) (import_module name) ;;
  cls <- extern (attr_Adapter adapter_module) ;;
  call (EvRegisterCall cls) (register_adapter driver cls) ;;
  emit (EvRegistered cls).

(** The [except Exception as e] suite (nbfile 21-22, templates 22-23);
    its [continue] ends the iteration, as falling off the suite does. *)
Definition except_body (adapter : toml) (e : exn) : Stmt unit :=
  name <- eval (getitem adapter "name") ;;
  logger_error
    ("Failed to register adapter " ++ fstr name ++ ": " ++ exn_str e).

(** One turn of the loop. *)
Definition iteration (driver : Driver) (adapter : toml) : Stmt unit :=
  try_except (try_body driver adapter) (except_body adapter).

(** [for adapter in adapters: ...], the same text in both files. *)
Fixpoint register_loop (driver : Driver) (adapters : list toml) : Stmt unit :=
  match adapters with
  | [] => ret tt
  | adapter :: rest =>
      iteration driver adapter ;; register_loop driver rest
  end.

(** [pyproject = tomllib.load(f)] *)
Definition load_manifest (f : FileObj) : Stmt toml :=
  doc <- call EvTomlLoad (tomllib_load f) ;;
  (fun s => (Ok doc, mkState (world s) (trace s) (Some doc))).

(** [if __name__ == "__main__": nonebot.run(...)] *)
Definition run_if_main (as_main : bool) (app : option string) : Stmt unit :=
  if as_main then call (EvRun app) (nonebot_run app) else ret tt.

(** [nbfile/bot.py], lines 9-28. *)
Definition nbfile_bot (as_main : bool) : Stmt unit :=
  extern nonebot_init ;;
  driver <- extern get_driver ;;
  with_open "pyproject.toml" (fun f =>
    pyproject <- load_manifest f ;;
    tool <- eval (getitem pyproject "tool") ;;
    nonebot <- eval (getitem tool "nonebot") ;;
    adapters <- eval (getitem nonebot "adapters") ;;
    items <- eval (iterate adapters) ;;
    register_loop driver items) ;;
  call (EvLoadFromToml "pyproject.toml") (load_from_toml "pyproject.toml") ;;
  run_if_main as_main (Some "__mp_main__:app").

(** [templates/bot.py], lines 9-29. *)
Definition templates_bot (as_main : bool) : Stmt unit :=
  extern nonebot_init ;;
  driver <- extern get_driver ;;
  with_open "pyproject.toml" (fun f =>
    pyproject <- load_manifest f ;;
    tool <- eval (getitem pyproject "tool") ;;
    tool_nonebot <- eval (getitem tool "nonebot") ;;
    adapters <- eval (getitem tool_nonebot "adapters") ;;
    items <- eval (iterate adapters) ;;
    register_loop driver items ;;
    builtin_plugins <- eval (getitem tool_nonebot "builtin_plugins") ;;
    names <- eval (iterate builtin_plugins) ;;
    call (EvLoadBuiltinPlugins names) (load_builtin_plugins names)) ;;
  call (EvLoadFromToml "pyproject.toml") (load_from_toml "pyproject.toml") ;;
  run_if_main as_main None.

(** A process starts with nothing done and nothing loaded. *)
Definition start (w : World) : state := mkState w [] None.

(** *** Reading a trace *)

Definition count (p : event -> bool) (t : list event) : nat :=
  length (filter p t).

Definition is_registered (ev : event) : bool :=
  match ev with EvRegistered _ => true | _ => false end.
Definition is_register_call (ev : event) : bool :=
  match ev with EvRegisterCall _ => true | _ => false end.
Definition is_log_error (ev : event) : bool :=
  match ev with EvLogError _ => true | _ => false end.
Definition is_toml_load (ev : event) : bool :=
  match ev with EvTomlLoad => true | _ => false end.
Definition is_load_from_toml (ev : event) : bool :=
  match ev with EvLoadFromToml _ => true | _ => false end.
Definition is_load_builtin (ev : event) : bool :=
  match ev with EvLoadBuiltinPlugins _ => true | _ => false end.

(** Adapters registered with the driver, registration calls made,
    failures logged. *)
Definition registered (t : list event) : nat := count is_registered t.
Definition register_calls (t : list event) : nat := count is_register_call t.
Definition logged (t : list event) : nat := count is_log_error t.

(** The script itself parsing the manifest. *)
Definition manifest_parses (t : list event) : nat := count is_toml_load t.

(** Every read of the manifest file in a run: the script's own parse, and
    the framework's [load_from_toml], which is handed the file's path and
    "reads the same TOML structure to discover and load plugins". *)
Definition reads_manifest (ev : event) : bool :=
  match ev with
  | EvTomlLoad => true
  | EvLoadFromToml path => String.eqb path "pyproject.toml"
  | _ => false
  end.
Definition manifest_reads (t : list event) : nat := count reads_manifest t.

Definition reached_load_from_toml (t : list event) : bool :=
  existsb is_load_from_toml t.
Definition reached_load_builtin (t : list event) : bool :=
  existsb is_load_builtin t.

(** *** Reading a manifest *)

(** The descriptor resolves and registers, in the state the loop meets
    it in. *)
Definition resolves (driver : Driver) (adapter : toml) (s : state) : bool :=
  is_ok (fst (try_body driver adapter s)).

(** M: how many of the descriptors resolve and register, each met in the
    state the turns before it left. *)
Fixpoint successes (driver : Driver) (adapters : list toml) (s : state) : nat :=
  match adapters with
  | [] => 0
  | adapter :: rest =>
      (if resolves driver adapter s then 1 else 0)
      + successes driver rest (snd (iteration driver adapter s))
  end.

(** A descriptor's failure can be reported: what was raised derives from
    [Exception] and the descriptor has a ["name"]. *)
Definition reportable (driver : Driver) (adapter : toml) (s : state) : bool :=
  match fst (try_body driver adapter s) with
  | Ok _ => true
  | Raise e => is_Exception e && is_ok (getitem adapter "name")
  end.

Fixpoint all_reportable (driver : Driver) (adapters : list toml) (s : state)
    : bool :=
  match adapters with
  | [] => true
  | adapter :: rest =>
      reportable driver adapter s
      && all_reportable driver rest (snd (iteration driver adapter s))
  end.

(** The subscripts of line 15 (templates: 15-16) on a parsed manifest,
    and the list the [for] goes through. *)
Definition tool_nonebot_of (pyproject : toml) : result toml :=
  match getitem pyproject "tool" with
  | Ok tool => getitem tool "nonebot"
  | Raise e => Raise e
  end.

Definition adapters_of (pyproject : toml) : result toml :=
  match tool_nonebot_of pyproject with
  | Ok tool_nonebot => getitem tool_nonebot "adapters"
  | Raise e => Raise e
  end.

Definition descriptors_of (pyproject : toml) : result (list toml) :=
  match adapters_of pyproject with
  | Ok adapters => iterate adapters
  | Raise e => Raise e
  end.

(** Line 24 of the template: the names unpacked into
    [load_builtin_plugins]. *)
Definition builtin_plugins_of (pyproject : toml) : result (list toml) :=
  match tool_nonebot_of pyproject with
  | Ok tool_nonebot =>
      match getitem tool_nonebot "builtin_plugins" with
      | Ok builtin_plugins => iterate builtin_plugins
      | Raise e => Raise e
      end
  | Raise e => Raise e
  end.

(** The start of either script, up to the manifest being parsed: the
    driver, the open file and the parsed manifest. *)
Definition to_manifest : Stmt (Driver * FileObj * toml) :=
  extern nonebot_init ;;
  driver <- extern get_driver ;;
  f <- extern (py_open "pyproject.toml") ;;
  pyproject <- load_manifest f ;;
  ret (driver, f, pyproject).

(** The state the [with] block leaves: the file closed. *)
Definition closed (f : FileObj) (s : state) : state :=
  mkState (file_close f (world s)) (trace s) (pyproject s).

(** Events of the loop. *)
Definition loop_event (ev : event) : Prop :=
  match ev with
  | EvImport _ | EvRegisterCall _ | EvRegistered _ | EvLogError _ => True
  | _ => False
  end.

(** Events after the loop, other than [load_from_toml]. *)
Definition other_event (ev : event) : Prop :=
  match ev with
  | EvLoadBuiltinPlugins _ | EvRun _ => True
  | _ => False
  end.

(** The trace of a run that got to parse the manifest: the parse, the
    loop, and what follows the loop, with [load_from_toml] called on the
    manifest's path at most once. *)
Definition shaped (t : list event) : Prop :=
  exists loop_part pre extra,
    Forall loop_event loop_part /\ Forall other_event pre
    /\ Forall other_event extra
    /\ (t = (EvTomlLoad :: loop_part ++ pre)%list
        \/ t = (EvTomlLoad :: loop_part ++ pre
                  ++ EvLoadFromToml "pyproject.toml" :: extra)%list).

(** How a script treats the manifest, in the run from world [w]: the
    script parses it at most once, and before it does anything else the
    trace records; the parsed manifest is, at the end, what
    [tomllib.load] returned (nothing, if the run did not get that far);
    and the file is read once more, by the framework, exactly when the
    run reaches [load_from_toml]. *)
Definition manifest_discipline (script : Stmt unit) (w : World) : Prop :=
  let s := snd (script (start w)) in
  manifest_parses (trace s) <= 1
  /\ (trace s = []
      \/ exists post, trace s = EvTomlLoad :: post /\ manifest_parses post = 0)
  /\ pyproject s
     = match fst (to_manifest (start w)) with
       | Ok (_, _, doc) => Some doc
       | Raise _ => None
       end
  /\ manifest_reads (trace s)
     = manifest_parses (trace s)
       + (if reached_load_from_toml (trace s) then 1 else 0).

(** A statement that adds to the trace only events of one kind and
    leaves the parsed manifest as it is. *)
Definition quiet {A} (P : event -> Prop) (m : Stmt A) : Prop :=
  forall s,
    pyproject (snd (m s)) = pyproject s
    /\ exists extra,
         trace (snd (m s)) = (trace s ++ extra)%list /\ Forall P extra.

(** The [try] suite, outcome by outcome: where it stops, what it has
    added to the trace by then. *)
Inductive try_outcome (driver : Driver) (adapter : toml) (s : state)
    : result unit -> state -> Prop :=
| NoModuleName e :
    getitem adapter "module_name" = Raise e ->
    try_outcome driver adapter s (Raise e) s
| ImportFails name e w :
    getitem adapter "module_name" = Ok name ->
    import_module name (world s) = (Raise e, w) ->
    try_outcome driver adapter s (Raise e)
      (mkState w (trace s ++ [EvImport name])%list (pyproject s))
| NoAdapterAttr name m w1 e w :
    getitem adapter "module_name" = Ok name ->
    import_module name (world s) = (Ok m, w1) ->
    attr_Adapter m w1 = (Raise e, w) ->
    try_outcome driver adapter s (Raise e)
      (mkState w (trace s ++ [EvImport name])%list (pyproject s))
| RegisterFails name m w1 cls w2 e w :
    getitem adapter "module_name" = Ok name ->
    import_module name (world s) = (Ok m, w1) ->
    attr_Adapter m w1 = (Ok cls, w2) ->
    register_adapter driver cls w2 = (Raise e, w) ->
    try_outcome driver adapter s (Raise e)
      (mkState w (trace s ++ [EvImport name; EvRegisterCall cls]) (pyproject s))
| Registers name m w1 cls w2 w :
    getitem adapter "module_name" = Ok name ->
    import_module name (world s) = (Ok m, w1) ->
    attr_Adapter m w1 = (Ok cls, w2) ->
    register_adapter driver cls w2 = (Ok tt, w) ->
    try_outcome driver adapter s (Ok tt)
      (mkState w (trace s ++ [EvImport name; EvRegisterCall cls; EvRegistered cls])
         (pyproject s)).

(** *** More readings of a trace *)

Definition is_import (ev : event) : bool :=
  match ev with EvImport _ => true | _ => false end.
Definition is_run (ev : event) : bool :=
  match ev with EvRun _ => true | _ => false end.

(** Imports attempted. *)
Definition imports (t : list event) : nat := count is_import t.

(** An event of the loop, as a test. *)
Definition in_loop (ev : event) : bool :=
  match ev with
  | EvImport _ | EvRegisterCall _ | EvRegistered _ | EvLogError _ => true
  | _ => false
  end.

(** The names handed to [import_module], in the order of the calls. *)
Definition imported (t : list event) : list toml :=
  flat_map (fun ev => match ev with EvImport name => [name] | _ => [] end) t.

(** The ["module_name"] of each descriptor that has one, in list order. *)
Definition module_names (adapters : list toml) : list toml :=
  flat_map
    (fun adapter =>
       match getitem adapter "module_name" with
       | Ok name => [name]
       | Raise _ => []
       end)
    adapters.

(** What follows the [with] block in both scripts (nbfile 24-28, templates
    26-29). *)
Definition after_with (as_main : bool) (app : option string) : Stmt unit :=
  call (EvLoadFromToml "pyproject.toml") (load_from_toml "pyproject.toml") ;;
  run_if_main as_main app.


End Programs.

End Bot.

(** ** A concrete runtime

    A small world to run the scripts in: the manifest file (if there is one)
    and the adapter classes the driver holds.  One module can be imported and
    has an [Adapter]; one module ends the interpreter when imported; one
    adapter class is refused by the driver; every other name is not found. *)

Module Demo.
Import Bot.

Record world : Type := mkWorld {
  file : option toml;
  held : list string
}.

Definition import_demo (name : toml) (w : world) : result string * world :=
  match name with
  | TStr m =>
      if String.eqb m "nonebot.adapters.console" then (Ok m, w)
      else if String.eqb m "nonebot.adapters.refused" then (Ok m, w)
      else if String.eqb m "exits" then (Raise (Foreign false "SystemExit" "0"), w)
      else (Raise (Foreign true "ModuleNotFoundError" "No module named it"), w)
  | _ => (Raise (Foreign true "AttributeError" "no attribute startswith"), w)
  end.

Definition register_demo (_ : unit) (cls : string) (w : world)
    : result unit * world :=
  if String.eqb cls "nonebot.adapters.refused"
  then (Raise (Foreign true "RuntimeError" "refused"), w)
  else (Ok tt, mkWorld (file w) (held w ++ [cls])).

Definition load_demo (_ : unit) (w : world) : result toml * world :=
  match file w with
  | Some doc => (Ok doc, w)
  | None => (Raise (Foreign true "tomllib.TOMLDecodeError" "Invalid statement"), w)
  end.

#[export] Instance runtime : Runtime := {|
  World := world;
  FileObj := unit;
  PyModule := string;
  AdapterCls := string;
  Driver := unit;
  nonebot_init := fun w => (Ok tt, w);
  get_driver := fun w => (Ok tt, w);
  py_open := fun _ w => (Ok tt, w);
  file_close := fun _ w => w;
  tomllib_load := load_demo;
  import_module := import_demo;
  attr_Adapter := fun m w => (Ok m, w);
  register_adapter := register_demo;
  load_builtin_plugins := fun _ w => (Ok tt, w);
  load_from_toml := fun _ w => (Ok tt, w);
  nonebot_run := fun _ w => (Ok tt, w);
  format_value := fun _ => "?";
  exn_str := fun e =>
    match e with
    | KeyError k => k
    | TypeError what => what
    | Foreign _ _ text => text
    end
|}.

Definition descriptor (name module_name : string) : toml :=
  TTable [("name", TStr name); ("module_name", TStr module_name)].

Definition console : toml := descriptor "Console" "nonebot.adapters.console".
Definition ghost : toml := descriptor "Ghost" "nonebot.adapters.ghost".
Definition refused : toml := descriptor "Refused" "nonebot.adapters.refused".
(** A descriptor with no ["name"], for a module that is not there. *)
Definition nameless : toml := TTable [("module_name", TStr "nonebot.adapters.ghost")].
(** A descriptor whose module ends the interpreter. *)
Definition quitter : toml := descriptor "Quitter" "exits".

Definition manifest (adapters : list toml) : toml :=
  TTable [("project", TTable [("name", TStr "bot")]);
          ("tool", TTable [("nonebot",
             TTable [("adapters", TArray adapters);
                     ("builtin_plugins", TArray [TStr "echo"])])])].

(** A manifest that lists adapters and no built-in plugins. *)
Definition manifest_without_builtin (adapters : list toml) : toml :=
  TTable [("tool", TTable [("nonebot", TTable [("adapters", TArray adapters)])])].

(** A manifest whose [tool.nonebot] table has no ["adapters"]. *)
Definition manifest_without_adapters : toml :=
  TTable [("tool", TTable [("nonebot", TTable [("plugins", TArray [])])])].

Definition world_with (doc : toml) : world := mkWorld (Some doc) [].

(** The same runtime in a directory without a manifest: [open] raises. *)
Definition runtime_without_file : Runtime := {|
  World := world;
  FileObj := unit;
  PyModule := string;
  AdapterCls := string;
  Driver := unit;
  nonebot_init := fun w => (Ok tt, w);
  get_driver := fun w => (Ok tt, w);
  py_open := fun _ w =>
    (Raise (Foreign true "FileNotFoundError" "No such file or directory"), w);
  file_close := fun _ w => w;
  tomllib_load := load_demo;
  import_module := import_demo;
  attr_Adapter := fun m w => (Ok m, w);
  register_adapter := register_demo;
  load_builtin_plugins := fun _ w => (Ok tt, w);
  load_from_toml := fun _ w => (Ok tt, w);
  nonebot_run := fun _ w => (Ok tt, w);
  format_value := fun _ => "?";
  exn_str := fun e =>
    match e with
    | KeyError k => k
    | TypeError what => what
    | Foreign _ _ text => text
    end
|}.

(** A manifest whose [tool.nonebot.adapters] is any value. *)
Definition manifest_with (adapters : toml) : toml :=
  TTable [("tool", TTable [("nonebot",
     TTable [("adapters", adapters);
             ("builtin_plugins", TArray [TStr "echo"])])])].

(** A world whose manifest file does not parse. *)
Definition world_unparsed : world := mkWorld None [].

(** A descriptor with a ["name"] and no ["module_name"]. *)
Definition moduleless : toml := TTable [("name", TStr "Lost")].

(** The state either script is in at the head of its loop, started in
    [world_with doc]. *)
Definition at_loop (doc : toml) : state :=
  mkState (world_with doc) [EvTomlLoad] (Some doc).

End Demo.

(** * Properties of the example plugin *)

Section HelloProps.
Import Hello.

Lemma truthy_false (s : string) : truthy s = false <-> s = "".
Proof. destruct s; simpl; split; congruence. Qed.

Lemma truthy_true (s : string) : truthy s = true <-> s <> "".
Proof. destruct s; simpl; split; congruence. Qed.

(** The handler, by the text it extracted. *)
Lemma hello_handler_cases (args : Message) :
  (extract_plain_text args = "" /\ hello_handler args = finish "Hello, World!")
  \/ (extract_plain_text args <> ""
      /\ hello_handler args
         = finish ("Hello, " ++ extract_plain_text args ++ "!")).
Proof.
  unfold hello_handler.
  destruct (truthy (extract_plain_text args)) eqn:E.
  - right. split; [now apply truthy_true | reflexivity].
  - left. split; [now apply truthy_false | reflexivity].
Qed.

(** C3: when the extracted trailing text is empty the reply sent is exactly
    "Hello, World!", and when it is "Alice" the reply sent is exactly
    "Hello, Alice!". *)
Theorem hello_world_and_alice (args : Message) :
  (extract_plain_text args = "" ->
     replies (hello_handler args) = ["Hello, World!"])
  /\ (extract_plain_text args = "Alice" ->
     replies (hello_handler args) = ["Hello, Alice!"]).
Proof.
  unfold hello_handler; split; intros E; rewrite E; reflexivity.
Qed.

Lemma hello_world_and_alice_witness :
  replies (hello_handler []) = ["Hello, World!"]
  /\ replies (hello_handler [Media "image" "cat.png"; Text "Alice"])
     = ["Hello, Alice!"].
Proof.
  split.
  - apply (proj1 (hello_world_and_alice [])). reflexivity.
  - apply (proj2 (hello_world_and_alice [Media "image" "cat.png"; Text "Alice"])).
    reflexivity.
Defined.

(** C5: sent with the alias "hi", a command runs the same handler on the
    same trailing message as sent with "hello", so the reply is the same;
    and the handler does run. *)
Theorem alias_same_reply (trailing : Message) :
  dispatch "hi" trailing = dispatch "hello" trailing
  /\ dispatch "hello" trailing = Some (hello_handler trailing).
Proof. split; reflexivity. Qed.

(** A phrase that is neither the command nor its alias runs nothing. *)
Example other_phrase_not_dispatched :
  dispatch "hey" [Text "Alice"] = None.
Proof. reflexivity. Qed.

Lemma append_bang_world (s : string) : s ++ "!" = "World!" -> s = "World".
Proof.
  intros E.
  repeat (destruct s as [|? s]; simpl in E; [discriminate E || reflexivity|];
          injection E as <- E).
  all: try discriminate E.
  destruct s; discriminate E.
Qed.

(** C9, as the code has it: the reply is "Hello, World!" exactly when the
    extracted plain text is empty or is the word "World" itself; every
    non-empty extracted text [s], white space included, is answered
    "Hello, " ++ s ++ "!". *)
Theorem hello_reply_by_text (args : Message) :
  (replies (hello_handler args) = ["Hello, World!"]
     <-> extract_plain_text args = "" \/ extract_plain_text args = "World")
  /\ (extract_plain_text args <> "" ->
        replies (hello_handler args)
        = ["Hello, " ++ extract_plain_text args ++ "!"]).
Proof.
  destruct (hello_handler_cases args) as [[E ->] | [N ->]]; split.
  - split; [now left | reflexivity].
  - congruence.
  - split.
    + unfold replies, finish; simpl. intros Q. right.
      injection Q as Q. now apply append_bang_world.
    + intros [E | E]; [contradiction | rewrite E; reflexivity].
  - reflexivity.
Qed.

(** C9 as stated fails: the text "World" is not empty and is answered
    "Hello, World!". *)
Lemma hello_world_not_only_empty :
  ~ (forall args : Message,
       replies (hello_handler args) = ["Hello, World!"]
       <-> extract_plain_text args = "").
Proof.
  intros claim.
  assert (E : extract_plain_text [Text "World"] = "")
    by (apply claim; reflexivity).
  discriminate E.
Qed.

Lemma hello_reply_by_text_witness :
  replies (hello_handler [Text " "]) = ["Hello,  !"].
Proof.
  apply (proj2 (hello_reply_by_text [Text " "])). discriminate.
Defined.

(** C10: the reply depends on the extracted plain text alone (two
    invocations that extract the same text send the same reply and end the
    same way), and every invocation makes exactly one [finish] call. *)
Theorem hello_deterministic_one_reply (a b : Message) :
  extract_plain_text a = extract_plain_text b ->
  hello_handler a = hello_handler b
  /\ replies (hello_handler a) = replies (hello_handler b)
  /\ finish_calls (hello_handler a) = 1
  /\ finish_calls (hello_handler b) = 1.
Proof.
  intros E. unfold hello_handler. rewrite E.
  destruct (truthy (extract_plain_text b)); repeat split; reflexivity.
Qed.

Lemma hello_deterministic_one_reply_witness :
  hello_handler [Text "Al"; Media "face" "1"; Text "ice"]
    = hello_handler [Text "Alice"]
  /\ replies (hello_handler [Text "Al"; Media "face" "1"; Text "ice"])
     = replies (hello_handler [Text "Alice"])
  /\ finish_calls (hello_handler [Text "Al"; Media "face" "1"; Text "ice"]) = 1
  /\ finish_calls (hello_handler [Text "Alice"]) = 1.
Proof.
  apply (hello_deterministic_one_reply
           [Text "Al"; Media "face" "1"; Text "ice"] [Text "Alice"]).
  reflexivity.
Defined.

End HelloProps.

(** * Properties of the entry points *)

Section BotProps.
Import Bot.
Context {R : Runtime}.
Local Open Scope py_scope.
Local Open Scope list_scope.

(** ** Counting in a trace *)

Lemma count_app (p : event -> bool) (t u : list event) :
  count p (t ++ u) = count p t + count p u.
Proof. unfold count. now rewrite filter_app, length_app. Qed.

Lemma count_snoc (p : event -> bool) (t : list event) (ev : event) :
  count p (t ++ [ev]) = count p t + (if p ev then 1 else 0).
Proof. rewrite count_app. unfold count; simpl. now destruct (p ev). Qed.

Lemma count_none (p : event -> bool) (t : list event) :
  Forall (fun ev => p ev = false) t -> count p t = 0.
Proof.
  unfold count. induction 1 as [|ev t E _ IH]; simpl; [reflexivity|].
  now rewrite E.
Qed.

Lemma existsb_none (p : event -> bool) (t : list event) :
  Forall (fun ev => p ev = false) t -> existsb p t = false.
Proof.
  induction 1 as [|ev t E _ IH]; simpl; [reflexivity|]. now rewrite E.
Qed.

(** ** One turn of the loop *)

Lemma try_body_outcome (driver : Driver) (adapter : toml) (s : state) :
  try_outcome driver adapter s
    (fst (try_body driver adapter s)) (snd (try_body driver adapter s)).
Proof.
  unfold try_body, call, bind, eval, emit, extern; simpl.
  destruct (getitem adapter "module_name") as [name|e] eqn:G; simpl.
  2: now apply NoModuleName.
  destruct (import_module name (world s)) as [[m|e] w1] eqn:I; simpl.
  2: now eapply ImportFails.
  destruct (attr_Adapter m w1) as [[cls|e] w2] eqn:A; simpl.
  2: now eapply NoAdapterAttr; eauto.
  destruct (register_adapter driver cls w2) as [[[]|e] w3] eqn:Rg; simpl.
  - rewrite <- !app_assoc; simpl. eapply Registers; eauto.
  - rewrite <- !app_assoc; simpl. eapply RegisterFails; eauto.
Qed.

Lemma try_body_counts (driver : Driver) (adapter : toml) (s : state) r s' :
  try_body driver adapter s = (r, s') ->
  pyproject s' = pyproject s
  /\ logged (trace s') = logged (trace s)
  /\ registered (trace s') = registered (trace s) + (if is_ok r then 1 else 0)
  /\ exists extra, trace s' = trace s ++ extra /\ Forall loop_event extra.
Proof.
  intros E. pose proof (try_body_outcome driver adapter s) as O.
  rewrite E in O; simpl in O.
  unfold logged, registered.
  destruct O; simpl; rewrite ?count_app; unfold count; simpl;
    (split; [reflexivity|]); (split; [lia|]); (split; [lia|]).
  - exists []. now rewrite app_nil_r.
  - eexists; split; [reflexivity|]. repeat constructor.
  - eexists; split; [reflexivity|]. repeat constructor.
  - eexists; split; [reflexivity|]. repeat constructor.
  - eexists; split; [reflexivity|]. repeat constructor.
Qed.

Lemma iteration_ok (driver : Driver) (adapter : toml) (s s' : state) :
  try_body driver adapter s = (Ok tt, s') ->
  iteration driver adapter s = (Ok tt, s').
Proof. intros E. unfold iteration, try_except. now rewrite E. Qed.

Lemma iteration_logged (driver : Driver) (adapter : toml) (s s' : state) e v :
  try_body driver adapter s = (Raise e, s') ->
  is_Exception e = true ->
  getitem adapter "name" = Ok v ->
  iteration driver adapter s
  = (Ok tt,
     mkState (world s')
       (trace s' ++ [EvLogError
          ("Failed to register adapter " ++ fstr v ++ ": " ++ exn_str e)%string])
       (pyproject s')).
Proof.
  intros E C G. unfold iteration, try_except. rewrite E, C.
  unfold except_body, bind, eval, logger_error, emit. now rewrite G.
Qed.

Lemma iteration_abort (driver : Driver) (adapter : toml) (s s' : state) e e' :
  try_body driver adapter s = (Raise e, s') ->
  is_Exception e = true ->
  getitem adapter "name" = Raise e' ->
  iteration driver adapter s = (Raise e', s').
Proof.
  intros E C G. unfold iteration, try_except. rewrite E, C.
  unfold except_body, bind, eval. now rewrite G.
Qed.

Lemma iteration_uncaught (driver : Driver) (adapter : toml) (s s' : state) e :
  try_body driver adapter s = (Raise e, s') ->
  is_Exception e = false ->
  iteration driver adapter s = (Raise e, s').
Proof. intros E C. unfold iteration, try_except. now rewrite E, C. Qed.

Lemma register_loop_cons (driver : Driver) adapter rest (s : state) :
  register_loop driver (adapter :: rest) s
  = match iteration driver adapter s with
    | (Ok _, s') => register_loop driver rest s'
    | (Raise e, s') => (Raise e, s')
    end.
Proof. reflexivity. Qed.

(** The loop over a list in two parts. *)
Lemma register_loop_app (driver : Driver) (before after : list toml) (s : state) :
  register_loop driver (before ++ after) s
  = match register_loop driver before s with
    | (Ok _, s') => register_loop driver after s'
    | (Raise e, s') => (Raise e, s')
    end.
Proof.
  revert s. induction before as [|adapter before IH]; intros s.
  - reflexivity.
  - simpl app. rewrite !register_loop_cons.
    destruct (iteration driver adapter s) as [[[]|e] s']; [apply IH | reflexivity].
Qed.

(** One turn adds only loop events and leaves the parsed manifest alone. *)
Lemma iteration_quiet (driver : Driver) (adapter : toml) :
  quiet loop_event (iteration driver adapter).
Proof.
  intros s.
  destruct (try_body driver adapter s) as [[[]|e] s'] eqn:E.
  - rewrite (iteration_ok _ _ _ _ E); simpl.
    destruct (try_body_counts _ _ _ _ _ E) as (P & _ & _ & X). now split.
  - destruct (try_body_counts _ _ _ _ _ E) as (P & _ & _ & extra & T & F).
    destruct (is_Exception e) eqn:C.
    + destruct (getitem adapter "name") as [v|e'] eqn:G.
      * rewrite (iteration_logged _ _ _ _ _ _ E C G); simpl. split; [exact P|].
        exists (extra ++ [EvLogError
          ("Failed to register adapter " ++ fstr v ++ ": " ++ exn_str e)%string]).
        rewrite T, app_assoc. split; [reflexivity|].
        apply Forall_app; split; [exact F | repeat constructor].
      * rewrite (iteration_abort _ _ _ _ _ _ E C G); simpl. split; [exact P|].
        now exists extra.
    + rewrite (iteration_uncaught _ _ _ _ _ E C); simpl. split; [exact P|].
      now exists extra.
Qed.

Lemma register_loop_quiet (driver : Driver) (adapters : list toml) :
  quiet loop_event (register_loop driver adapters).
Proof.
  induction adapters as [|adapter rest IH]; intros s.
  - simpl. split; [reflexivity|]. exists []. now rewrite app_nil_r.
  - rewrite register_loop_cons.
    destruct (iteration_quiet driver adapter s) as (P & extra & T & F).
    destruct (iteration driver adapter s) as [[[]|e] s']; simpl in *.
    + destruct (IH s') as (P' & extra' & T' & F').
      split; [congruence|]. exists (extra ++ extra').
      rewrite T', T, app_assoc. split; [reflexivity|]. now apply Forall_app.
    + split; [exact P|]. now exists extra.
Qed.

(** The loop on descriptors whose failures can all be reported: it ends
    normally, having registered the M that resolve and logged the rest. *)
Lemma register_loop_counts (driver : Driver) (adapters : list toml) (s : state) :
  all_reportable driver adapters s = true ->
  successes driver adapters s <= length adapters
  /\ exists s',
      register_loop driver adapters s = (Ok tt, s')
      /\ registered (trace s')
         = registered (trace s) + successes driver adapters s
      /\ logged (trace s')
         = logged (trace s) + (length adapters - successes driver adapters s).
Proof.
  revert s. induction adapters as [|adapter rest IH]; intros s A.
  - cbn. split; [lia|]. exists s. repeat split; lia.
  - cbn [all_reportable] in A. apply andb_prop in A as [A1 A2].
    unfold reportable in A1. cbn [successes length]. unfold resolves.
    rewrite register_loop_cons.
    destruct (try_body driver adapter s) as [[[]|e] s1] eqn:E;
      cbn [fst snd is_ok] in A1 |- *;
      destruct (try_body_counts _ _ _ _ _ E) as (_ & L & Rg & _);
      cbn [is_ok] in Rg.
    + rewrite (iteration_ok _ _ _ _ E) in A2 |- *. cbn [snd] in A2 |- *.
      destruct (IH s1 A2) as (B & s' & Run & Rg' & L').
      split; [lia|]. exists s'. split; [exact Run|]. split; lia.
    + apply andb_prop in A1 as [C G].
      destruct (getitem adapter "name") as [v|e'] eqn:N; [|discriminate G].
      rewrite (iteration_logged _ _ _ _ _ _ E C N) in A2 |- *.
      cbn [snd] in A2 |- *.
      match type of A2 with all_reportable _ _ ?s2 = true =>
        destruct (IH s2 A2) as (B & s' & Run & Rg' & L') end.
      cbn [trace] in Rg', L'. unfold registered, logged in *.
      rewrite count_snoc in Rg', L'. cbn [is_registered is_log_error] in Rg', L'.
      split; [lia|]. exists s'. split; [exact Run|]. split; lia.
Qed.

(** ** Sequencing *)

Lemma bind_ok {A B} (m : Stmt A) (k : A -> Stmt B) (s s' : state) (a : A) :
  m s = (Ok a, s') -> bind m k s = k a s'.
Proof. intros E. unfold bind. now rewrite E. Qed.

Lemma bind_raise {A B} (m : Stmt A) (k : A -> Stmt B) (s s' : state) e :
  m s = (Raise e, s') -> bind m k s = (Raise e, s').
Proof. intros E. unfold bind. now rewrite E. Qed.

Lemma bind_ok_inv {A B} (m : Stmt A) (k : A -> Stmt B) (s s2 : state) (b : B) :
  bind m k s = (Ok b, s2) ->
  exists a s', m s = (Ok a, s') /\ k a s' = (Ok b, s2).
Proof.
  unfold bind. destruct (m s) as [[a|e] s']; [eauto | discriminate].
Qed.

Lemma eval_run {A} (r : result A) (s : state) : eval r s = (r, s).
Proof. reflexivity. Qed.

(** ** From the start of a script to the loop *)

Lemma to_manifest_cases (w : World) :
  match to_manifest (start w) with
  | (Ok (_, _, doc), s1) => trace s1 = [EvTomlLoad] /\ pyproject s1 = Some doc
  | (Raise _, s1) =>
      pyproject s1 = None /\ (trace s1 = [] \/ trace s1 = [EvTomlLoad])
  end.
Proof.
  unfold to_manifest, load_manifest, call, bind, extern, emit, ret, start.
  simpl.
  destruct (nonebot_init w) as [[[]|e] w1]; simpl; [|now auto].
  destruct (get_driver w1) as [[driver|e] w2]; simpl; [|now auto].
  destruct (py_open "pyproject.toml" w2) as [[f|e] w3]; simpl; [|now auto].
  destruct (tomllib_load f w3) as [[doc|e] w4]; simpl; auto.
Qed.

Lemma to_manifest_ok (w : World) driver f doc s1 :
  to_manifest (start w) = (Ok (driver, f, doc), s1) ->
  trace s1 = [EvTomlLoad] /\ pyproject s1 = Some doc.
Proof. intros E. pose proof (to_manifest_cases w) as C. now rewrite E in C. Qed.

(** What follows the [with] block in both scripts. *)
Lemma finish_startup (as_main : bool) (app : option string) (s : state) :
  let s' := snd ((call (EvLoadFromToml "pyproject.toml")
                    (load_from_toml "pyproject.toml") ;;
                  run_if_main as_main app) s) in
  pyproject s' = pyproject s
  /\ exists extra,
       trace s' = trace s ++ EvLoadFromToml "pyproject.toml" :: extra
       /\ (extra = [] \/ extra = [EvRun app]).
Proof.
  unfold run_if_main, call, bind, extern, emit, ret. cbn [world trace pyproject].
  destruct (load_from_toml "pyproject.toml" (world s)) as [[[]|e] w1];
    cbn [snd trace pyproject world].
  - destruct as_main; cbn [snd trace pyproject world].
    + destruct (nonebot_run app w1) as [[[]|e] w2]; cbn [snd trace pyproject];
        (split; [reflexivity|]); exists [EvRun app];
        rewrite <- app_assoc; auto.
    + split; [reflexivity|]. exists []. auto.
  - split; [reflexivity|]. exists []. auto.
Qed.

(** [nbfile/bot.py] from the parsed manifest on. *)
Lemma nbfile_bot_from_manifest (as_main : bool) (w : World) driver f doc s1 :
  to_manifest (start w) = (Ok (driver, f, doc), s1) ->
  nbfile_bot as_main (start w)
  = match descriptors_of doc with
    | Raise e => (Raise e, closed f s1)
    | Ok items =>
        match register_loop driver items s1 with
        | (Raise e, s2) => (Raise e, closed f s2)
        | (Ok _, s2) =>
            (call (EvLoadFromToml "pyproject.toml")
               (load_from_toml "pyproject.toml") ;;
             run_if_main as_main (Some "__mp_main__:app")) (closed f s2)
        end
    end.
Proof.
  intros E. unfold to_manifest in E.
  apply bind_ok_inv in E as ([] & sa & Ea & E).
  apply bind_ok_inv in E as (driver' & sb & Eb & E).
  apply bind_ok_inv in E as (f' & sc & Ec & E).
  apply bind_ok_inv in E as (doc' & sd & Ed & E).
  unfold ret in E. injection E as -> -> -> ->.
  unfold nbfile_bot.
  rewrite (bind_ok _ _ _ _ _ Ea), (bind_ok _ _ _ _ _ Eb).
  unfold bind at 1. unfold with_open. rewrite Ec.
  rewrite (bind_ok _ _ _ _ _ Ed).
  unfold descriptors_of, adapters_of, tool_nonebot_of.
  unfold bind at 1. rewrite eval_run.
  destruct (getitem doc "tool") as [tool|e]; [|reflexivity].
  unfold bind at 1. rewrite eval_run.
  destruct (getitem tool "nonebot") as [nb|e]; [|reflexivity].
  unfold bind at 1. rewrite eval_run.
  destruct (getitem nb "adapters") as [ad|e]; [|reflexivity].
  unfold bind at 1. rewrite eval_run.
  destruct (iterate ad) as [items|e]; [|reflexivity].
  destruct (register_loop driver items s1) as [[[]|e] s2]; reflexivity.
Qed.

(** [templates/bot.py] from the parsed manifest on. *)
Lemma templates_bot_from_manifest (as_main : bool) (w : World) driver f doc s1 :
  to_manifest (start w) = (Ok (driver, f, doc), s1) ->
  templates_bot as_main (start w)
  = match descriptors_of doc with
    | Raise e => (Raise e, closed f s1)
    | Ok items =>
        match register_loop driver items s1 with
        | (Raise e, s2) => (Raise e, closed f s2)
        | (Ok _, s2) =>
            match builtin_plugins_of doc with
            | Raise e => (Raise e, closed f s2)
            | Ok names =>
                let s3 w3 :=
                  mkState w3 (trace s2 ++ [EvLoadBuiltinPlugins names])
                    (pyproject s2) in
                match load_builtin_plugins names (world s2) with
                | (Raise e, w3) => (Raise e, closed f (s3 w3))
                | (Ok _, w3) =>
                    (call (EvLoadFromToml "pyproject.toml")
                       (load_from_toml "pyproject.toml") ;;
                     run_if_main as_main None) (closed f (s3 w3))
                end
            end
        end
    end.
Proof.
  intros E. unfold to_manifest in E.
  apply bind_ok_inv in E as ([] & sa & Ea & E).
  apply bind_ok_inv in E as (driver' & sb & Eb & E).
  apply bind_ok_inv in E as (f' & sc & Ec & E).
  apply bind_ok_inv in E as (doc' & sd & Ed & E).
  unfold ret in E. injection E as -> -> -> ->.
  unfold templates_bot.
  rewrite (bind_ok _ _ _ _ _ Ea), (bind_ok _ _ _ _ _ Eb).
  unfold bind at 1. unfold with_open. rewrite Ec.
  rewrite (bind_ok _ _ _ _ _ Ed).
  unfold descriptors_of, adapters_of, builtin_plugins_of, tool_nonebot_of.
  unfold bind at 1. rewrite eval_run.
  destruct (getitem doc "tool") as [tool|e]; [|reflexivity].
  unfold bind at 1. rewrite eval_run.
  destruct (getitem tool "nonebot") as [nb|e]; [|reflexivity].
  unfold bind at 1. rewrite eval_run.
  destruct (getitem nb "adapters") as [ad|e]; [|reflexivity].
  unfold bind at 1. rewrite eval_run.
  destruct (iterate ad) as [items|e]; [|reflexivity].
  unfold bind at 1.
  destruct (register_loop driver items s1) as [[[]|e] s2]; [|reflexivity].
  unfold bind at 1. rewrite eval_run.
  destruct (getitem nb "builtin_plugins") as [bp|e]; [|reflexivity].
  unfold bind at 1. rewrite eval_run.
  destruct (iterate bp) as [names|e]; [|reflexivity].
  unfold call at 1, bind at 1, emit at 1, extern at 1, bind at 1.
  cbn [world trace pyproject].
  destruct (load_builtin_plugins names (world s2)) as [[[]|e] w3]; reflexivity.
Qed.

Ltac run_prefix E Ex :=
  match goal with
  | |- context [bind ?m _ ?s] =>
      match type of E with
      | context [bind m _ s] =>
          destruct (m s) as [[?|?] ?] eqn:Ex;
          [ rewrite (bind_ok _ _ _ _ _ Ex) in E; rewrite (bind_ok _ _ _ _ _ Ex)
          | rewrite (bind_raise _ _ _ _ _ Ex) in E;
            rewrite (bind_raise _ _ _ _ _ Ex);
            injection E as <- <-; eexists; split; [reflexivity | auto] ]
      end
  end.

(** A script whose start fails ends with that failure, nothing more done. *)
Lemma nbfile_bot_no_manifest (as_main : bool) (w : World) e s1 :
  to_manifest (start w) = (Raise e, s1) ->
  exists s',
    nbfile_bot as_main (start w) = (Raise e, s')
    /\ trace s' = trace s1 /\ pyproject s' = pyproject s1.
Proof.
  intros E. unfold to_manifest in E. unfold nbfile_bot.
  run_prefix E Ea. run_prefix E Eb.
  unfold bind at 1. unfold with_open.
  destruct (extern (py_open "pyproject.toml") s0) as [[f|e0] sc] eqn:Ec.
  - rewrite (bind_ok _ _ _ _ _ Ec) in E.
    destruct (load_manifest f sc) as [[doc|e0] sd] eqn:Ed.
    + rewrite (bind_ok _ _ _ _ _ Ed) in E. discriminate E.
    + rewrite (bind_raise _ _ _ _ _ Ed) in E. rewrite (bind_raise _ _ _ _ _ Ed).
      injection E as <- <-. eexists; split; [reflexivity | auto].
  - rewrite (bind_raise _ _ _ _ _ Ec) in E. injection E as <- <-.
    eexists; split; [reflexivity | auto].
Qed.

Lemma templates_bot_no_manifest (as_main : bool) (w : World) e s1 :
  to_manifest (start w) = (Raise e, s1) ->
  exists s',
    templates_bot as_main (start w) = (Raise e, s')
    /\ trace s' = trace s1 /\ pyproject s' = pyproject s1.
Proof.
  intros E. unfold to_manifest in E. unfold templates_bot.
  run_prefix E Ea. run_prefix E Eb.
  unfold bind at 1. unfold with_open.
  destruct (extern (py_open "pyproject.toml") s0) as [[f|e0] sc] eqn:Ec.
  - rewrite (bind_ok _ _ _ _ _ Ec) in E.
    destruct (load_manifest f sc) as [[doc|e0] sd] eqn:Ed.
    + rewrite (bind_ok _ _ _ _ _ Ed) in E. discriminate E.
    + rewrite (bind_raise _ _ _ _ _ Ed) in E. rewrite (bind_raise _ _ _ _ _ Ed).
      injection E as <- <-. eexists; split; [reflexivity | auto].
  - rewrite (bind_raise _ _ _ _ _ Ec) in E. injection E as <- <-.
    eexists; split; [reflexivity | auto].
Qed.

(** ** The claims about the loop and the manifest *)

Lemma loop_events_counts (t : list event) :
  Forall loop_event t ->
  manifest_parses t = 0 /\ manifest_reads t = 0
  /\ reached_load_from_toml t = false /\ reached_load_builtin t = false.
Proof.
  intros F. unfold manifest_parses, manifest_reads, reached_load_from_toml,
    reached_load_builtin.
  repeat split; (apply count_none || apply existsb_none);
    (eapply Forall_impl; [|exact F]); intros []; simpl; tauto.
Qed.

(** C4: when the subscripts that fetch the adapter table fail (a missing
    ["tool"], ["nonebot"] or ["adapters"] key, or a value that is not a
    table on the way), each script ends with that error, uncaught, and has
    made no call to [register_adapter]: all it did was parse the
    manifest. *)
Theorem no_adapter_table_no_registration
    (as_main : bool) (w : World) driver f doc s1 e :
  to_manifest (start w) = (Ok (driver, f, doc), s1) ->
  adapters_of doc = Raise e ->
  (fst (nbfile_bot as_main (start w)) = Raise e
   /\ trace (snd (nbfile_bot as_main (start w))) = [EvTomlLoad]
   /\ register_calls (trace (snd (nbfile_bot as_main (start w)))) = 0)
  /\ (fst (templates_bot as_main (start w)) = Raise e
      /\ trace (snd (templates_bot as_main (start w))) = [EvTomlLoad]
      /\ register_calls (trace (snd (templates_bot as_main (start w)))) = 0).
Proof.
  intros E A. destruct (to_manifest_ok _ _ _ _ _ E) as [T _].
  rewrite (nbfile_bot_from_manifest _ _ _ _ _ _ E),
          (templates_bot_from_manifest _ _ _ _ _ _ E).
  unfold descriptors_of. rewrite A. cbn [fst snd closed trace].
  rewrite T. repeat split; reflexivity.
Qed.

(** C6: with an empty adapter list the loop returns at once, without an
    error and with the state as it was; no registration is attempted,
    nothing is logged, and the script goes on: [nbfile/bot.py] calls
    [load_from_toml], [templates/bot.py] goes on to line 24 and calls
    [load_builtin_plugins] when the manifest lists the built-in plugins. *)
Theorem empty_adapter_list (as_main : bool) (w : World) driver f doc s1 :
  to_manifest (start w) = (Ok (driver, f, doc), s1) ->
  descriptors_of doc = Ok [] ->
  register_loop driver [] s1 = (Ok tt, s1)
  /\ (let t := trace (snd (nbfile_bot as_main (start w))) in
      register_calls t = 0 /\ registered t = 0 /\ logged t = 0
      /\ reached_load_from_toml t = true)
  /\ (let t := trace (snd (templates_bot as_main (start w))) in
      register_calls t = 0 /\ registered t = 0 /\ logged t = 0
      /\ forall names, builtin_plugins_of doc = Ok names ->
           reached_load_builtin t = true).
Proof.
  intros E D. destruct (to_manifest_ok _ _ _ _ _ E) as [T _].
  split; [reflexivity|].
  rewrite (nbfile_bot_from_manifest _ _ _ _ _ _ E),
          (templates_bot_from_manifest _ _ _ _ _ _ E).
  rewrite D. cbn [register_loop ret]. split.
  - destruct (finish_startup as_main (Some "__mp_main__:app") (closed f s1))
      as (_ & extra & -> & X).
    cbn [closed trace]. rewrite T.
    destruct X as [-> | ->]; repeat split; reflexivity.
  - destruct (builtin_plugins_of doc) as [names|e'].
    + cbv zeta.
      destruct (load_builtin_plugins names (world s1)) as [[[]|e'] w3].
      * match goal with |- context [bind ?m ?k ?s] =>
          destruct (finish_startup as_main None s) as (_ & extra & -> & X) end.
        cbn [closed trace]. rewrite T.
        destruct X as [-> | ->]; repeat split; reflexivity.
      * cbn [snd closed trace]. rewrite T. repeat split; reflexivity.
    + cbn [snd closed trace]. rewrite T.
      repeat split; try reflexivity. discriminate.
Qed.

Lemma counts_after_loop (t extra : list event) :
  (extra = [] \/ exists app, extra = [EvRun app]) ->
  let t' := t ++ EvLoadFromToml "pyproject.toml" :: extra in
  registered t' = registered t /\ logged t' = logged t
  /\ reached_load_from_toml t' = true.
Proof.
  intros X t'. subst t'. unfold registered, logged, reached_load_from_toml.
  rewrite !count_app, existsb_app.
  destruct X as [-> | [app ->]]; cbn; rewrite orb_true_r; repeat split; lia.
Qed.

(** C1, as the code has it: when every descriptor that fails to resolve
    or register (fails: raises an error, an exception deriving from
    [Exception]) carries a ["name"], the loop over the N descriptors
    registers exactly the M that resolve and register, logs exactly N - M
    failures, and the script goes on whatever M is: [nbfile/bot.py] reaches
    [load_from_toml]; [templates/bot.py] reaches line 24, calls
    [load_builtin_plugins] when the manifest lists the built-in plugins, and
    reaches [load_from_toml] when that call returns. *)
Theorem registration_counts
    (as_main : bool) (w : World) driver f doc s1 items :
  to_manifest (start w) = (Ok (driver, f, doc), s1) ->
  descriptors_of doc = Ok items ->
  all_reportable driver items s1 = true ->
  let N := length items in
  let M := successes driver items s1 in
  M <= N
  /\ (let t := trace (snd (nbfile_bot as_main (start w))) in
      registered t = M /\ logged t = N - M
      /\ reached_load_from_toml t = true)
  /\ (let t := trace (snd (templates_bot as_main (start w))) in
      registered t = M /\ logged t = N - M
      /\ forall names, builtin_plugins_of doc = Ok names ->
           reached_load_builtin t = true
           /\ (is_ok (fst (load_builtin_plugins names
                             (world (snd (register_loop driver items s1)))))
               = true ->
               reached_load_from_toml t = true)).
Proof.
  intros E D A N M. destruct (to_manifest_ok _ _ _ _ _ E) as [T _].
  destruct (register_loop_counts driver items s1 A) as (B & s2 & Run & Rg & L).
  fold M in B, Rg, L. fold N in B, L.
  rewrite T in Rg, L. change (registered [EvTomlLoad]) with 0 in Rg.
  change (logged [EvTomlLoad]) with 0 in L. cbn [Nat.add] in Rg, L.
  split; [exact B|].
  rewrite (nbfile_bot_from_manifest _ _ _ _ _ _ E),
          (templates_bot_from_manifest _ _ _ _ _ _ E).
  rewrite D, Run. cbn [snd]. split.
  - destruct (finish_startup as_main (Some "__mp_main__:app") (closed f s2))
      as (_ & extra & -> & X).
    cbn [closed trace].
    destruct (counts_after_loop (trace s2) extra) as (Rg' & L' & Re).
    { destruct X; eauto. }
    cbv zeta. now rewrite Rg', L', Re.
  - destruct (builtin_plugins_of doc) as [names|e'] eqn:Bp.
    + cbv zeta.
      destruct (load_builtin_plugins names (world s2)) as [[[]|e'] w3] eqn:Lb.
      * match goal with |- context [bind ?m ?k ?s] =>
          destruct (finish_startup as_main None s) as (_ & extra & -> & X) end.
        cbn [closed trace].
        match goal with |- context [(?t ++ EvLoadFromToml _ :: extra)] =>
          destruct (counts_after_loop t extra) as (Rg' & L' & Re) end.
        { destruct X; eauto. }
        rewrite Rg', L', Re. unfold registered, logged in *.
        rewrite !count_snoc. cbn [is_registered is_log_error].
        split; [lia|]. split; [lia|].
        intros names' Q. injection Q as <-. split; [|reflexivity].
        unfold reached_load_builtin. rewrite !existsb_app. cbn.
        now rewrite !orb_true_r.
      * cbn [snd closed trace]. unfold registered, logged in *.
        rewrite !count_snoc. cbn [is_registered is_log_error].
        split; [lia|]. split; [lia|].
        intros names' Q. injection Q as <-.
        split; [|rewrite Lb; discriminate].
        unfold reached_load_builtin. rewrite existsb_app. cbn.
        now rewrite orb_true_r.
    + cbn [snd closed trace]. split; [exact Rg|]. split; [exact L|].
      discriminate.
Qed.

(** C2, as the code has it: when the [try] suite fails on a descriptor
    (fails: raises an error, an exception deriving from [Exception]) and
    the descriptor carries a ["name"], the error is caught, the line
    "Failed to register adapter <name>: <error>" is logged, the turn ends
    normally and the loop goes on with the next descriptor. *)
Theorem failure_is_logged
    (driver : Driver) (adapter : toml) (rest : list toml) (s s' : state) e v :
  try_body driver adapter s = (Raise e, s') ->
  is_Exception e = true ->
  getitem adapter "name" = Ok v ->
  let message :=
    ("Failed to register adapter " ++ fstr v ++ ": " ++ exn_str e)%string in
  let logged_state :=
    mkState (world s') (trace s' ++ [EvLogError message]) (pyproject s') in
  iteration driver adapter s = (Ok tt, logged_state)
  /\ register_loop driver (adapter :: rest) s
     = register_loop driver rest logged_state
  /\ (forall name, v = TStr name ->
        message
        = ("Failed to register adapter " ++ name ++ ": " ++ exn_str e)%string).
Proof.
  intros E C G message logged_state.
  pose proof (iteration_logged _ _ _ _ _ _ E C G) as I.
  split; [exact I|]. split.
  - rewrite register_loop_cons, I. reflexivity.
  - intros name ->. reflexivity.
Qed.

(** C8: when the [try] suite fails (fails: raises an error, an exception
    deriving from [Exception]) on a descriptor that is a table without a
    ["name"] key,
    the [except] suite itself raises [KeyError] for "name": nothing is
    logged, the loop stops there, and the script ends with that uncaught
    error, the descriptors after it never tried and the plugin loading
    never reached. *)
Theorem nameless_failure_aborts
    (as_main : bool) (w : World) driver f doc s1
    (before : list toml) (adapter : toml) (rest : list toml) s2 e s3 entries :
  to_manifest (start w) = (Ok (driver, f, doc), s1) ->
  descriptors_of doc = Ok (before ++ adapter :: rest) ->
  register_loop driver before s1 = (Ok tt, s2) ->
  try_body driver adapter s2 = (Raise e, s3) ->
  is_Exception e = true ->
  adapter = TTable entries ->
  assoc "name" entries = None ->
  register_loop driver (adapter :: rest) s2 = (Raise (KeyError "name"), s3)
  /\ logged (trace s3) = logged (trace s2)
  /\ (fst (nbfile_bot as_main (start w)) = Raise (KeyError "name")
      /\ trace (snd (nbfile_bot as_main (start w))) = trace s3)
  /\ (fst (templates_bot as_main (start w)) = Raise (KeyError "name")
      /\ trace (snd (templates_bot as_main (start w))) = trace s3)
  /\ reached_load_from_toml (trace s3) = false
  /\ reached_load_builtin (trace s3) = false.
Proof.
  intros E D B Tb C -> Nm.
  assert (G : getitem (TTable entries) "name" = Raise (KeyError "name"))
    by (cbn; now rewrite Nm).
  pose proof (iteration_abort _ _ _ _ _ _ Tb C G) as I.
  assert (Lp : register_loop driver (TTable entries :: rest) s2
               = (Raise (KeyError "name"), s3))
    by (rewrite register_loop_cons, I; reflexivity).
  assert (Whole : register_loop driver (before ++ TTable entries :: rest) s1
                  = (Raise (KeyError "name"), s3))
    by (rewrite register_loop_app, B; exact Lp).
  destruct (try_body_counts _ _ _ _ _ Tb) as (_ & L & _ & extra & T3 & F3).
  split; [exact Lp|]. split; [exact L|].
  rewrite (nbfile_bot_from_manifest _ _ _ _ _ _ E),
          (templates_bot_from_manifest _ _ _ _ _ _ E).
  rewrite D, Whole. cbn [fst snd closed trace].
  split; [now split|]. split; [now split|].
  destruct (to_manifest_ok _ _ _ _ _ E) as [T1 _].
  destruct (register_loop_quiet driver before s1) as (_ & extra1 & T2 & F2).
  rewrite B in T2. cbn [snd] in T2.
  rewrite T3, T2, T1.
  unfold reached_load_from_toml, reached_load_builtin.
  rewrite !existsb_app. cbn [existsb is_load_from_toml is_load_builtin orb].
  destruct (loop_events_counts _ F2) as (_ & _ & Q1 & Q2).
  destruct (loop_events_counts _ F3) as (_ & _ & Q3 & Q4).
  unfold reached_load_from_toml, reached_load_builtin in Q1, Q2, Q3, Q4.
  rewrite Q1, Q2, Q3, Q4. split; reflexivity.
Qed.

(** ** The manifest *)

Lemma other_events_counts (t : list event) :
  Forall other_event t ->
  manifest_parses t = 0 /\ manifest_reads t = 0
  /\ reached_load_from_toml t = false.
Proof.
  intros F. unfold manifest_parses, manifest_reads, reached_load_from_toml.
  repeat split; (apply count_none || apply existsb_none);
    (eapply Forall_impl; [|exact F]); intros []; simpl; tauto.
Qed.

Lemma shaped_discipline (t : list event) :
  shaped t ->
  manifest_parses t = 1
  /\ (exists post, t = EvTomlLoad :: post /\ manifest_parses post = 0)
  /\ manifest_reads t
     = manifest_parses t + (if reached_load_from_toml t then 1 else 0).
Proof.
  intros (loop_part & pre & extra & Fl & Fp & Fe & X).
  destruct (loop_events_counts _ Fl) as (P1 & R1 & L1 & _).
  destruct (other_events_counts _ Fp) as (P2 & R2 & L2).
  destruct (other_events_counts _ Fe) as (P3 & R3 & L3).
  unfold manifest_parses, manifest_reads, reached_load_from_toml in *.
  destruct X as [-> | ->].
  - change (EvTomlLoad :: loop_part ++ pre)
      with ([EvTomlLoad] ++ loop_part ++ pre).
    rewrite !count_app, !existsb_app, P1, P2, R1, R2, L1, L2.
    split; [reflexivity|]. split; [|reflexivity].
    eexists; split; [reflexivity|]. now rewrite count_app, P1, P2.
  - change (EvTomlLoad :: loop_part ++ pre ++ EvLoadFromToml "pyproject.toml" :: extra)
      with ([EvTomlLoad] ++ loop_part ++ pre
            ++ [EvLoadFromToml "pyproject.toml"] ++ extra).
    rewrite !count_app, !existsb_app, P1, P2, P3, R1, R2, R3, L1, L2, L3.
    split; [reflexivity|]. split; [|reflexivity].
    eexists; split; [reflexivity|]. now rewrite !count_app, P1, P2, P3.
Qed.

Lemma nbfile_bot_shaped (as_main : bool) (w : World) driver f doc s1 :
  to_manifest (start w) = (Ok (driver, f, doc), s1) ->
  shaped (trace (snd (nbfile_bot as_main (start w))))
  /\ pyproject (snd (nbfile_bot as_main (start w))) = Some doc.
Proof.
  intros E. destruct (to_manifest_ok _ _ _ _ _ E) as [T P].
  rewrite (nbfile_bot_from_manifest _ _ _ _ _ _ E).
  destruct (descriptors_of doc) as [items|e].
  - destruct (register_loop_quiet driver items s1) as (P2 & loop_part & T2 & F2).
    destruct (register_loop driver items s1) as [[[]|e] s2]; cbn [snd] in *.
    + destruct (finish_startup as_main (Some "__mp_main__:app") (closed f s2))
        as (P3 & extra & -> & X).
      cbn [closed trace pyproject] in *. split; [|congruence].
      exists loop_part, [], extra. rewrite T2, T.
      split; [exact F2|]. split; [constructor|]. split.
      * destruct X as [-> | ->]; repeat constructor.
      * right. now rewrite <- app_assoc.
    + cbn [closed trace pyproject]. split; [|congruence].
      exists loop_part, [], []. rewrite T2, T, app_nil_r. auto.
  - cbn [snd closed trace pyproject]. split; [|exact P].
    exists [], [], []. rewrite T. auto.
Qed.

Lemma templates_bot_shaped (as_main : bool) (w : World) driver f doc s1 :
  to_manifest (start w) = (Ok (driver, f, doc), s1) ->
  shaped (trace (snd (templates_bot as_main (start w))))
  /\ pyproject (snd (templates_bot as_main (start w))) = Some doc.
Proof.
  intros E. destruct (to_manifest_ok _ _ _ _ _ E) as [T P].
  rewrite (templates_bot_from_manifest _ _ _ _ _ _ E).
  destruct (descriptors_of doc) as [items|e].
  - destruct (register_loop_quiet driver items s1) as (P2 & loop_part & T2 & F2).
    destruct (register_loop driver items s1) as [[[]|e] s2]; cbn [snd] in *.
    + destruct (builtin_plugins_of doc) as [names|e].
      * cbv zeta.
        destruct (load_builtin_plugins names (world s2)) as [[[]|e] w3].
        -- match goal with |- context [bind ?m ?k ?s] =>
             destruct (finish_startup as_main None s) as (P3 & extra & -> & X) end.
           cbn [closed trace pyproject] in *. split; [|congruence].
           exists loop_part, [EvLoadBuiltinPlugins names], extra. rewrite T2, T.
           split; [exact F2|]. split; [repeat constructor|]. split.
           ++ destruct X as [-> | ->]; repeat constructor.
           ++ right. now rewrite <- !app_assoc.
        -- cbn [snd closed trace pyproject]. split; [|congruence].
           exists loop_part, [EvLoadBuiltinPlugins names], []. rewrite T2, T.
           split; [exact F2|]. split; [repeat constructor|]. split; [constructor|].
           left. now rewrite <- app_assoc.
      * cbn [snd closed trace pyproject]. split; [|congruence].
        exists loop_part, [], []. rewrite T2, T, app_nil_r. auto.
    + cbn [closed trace pyproject]. split; [|congruence].
      exists loop_part, [], []. rewrite T2, T, app_nil_r. auto.
  - cbn [snd closed trace pyproject]. split; [|exact P].
    exists [], [], []. rewrite T. auto.
Qed.

(** C7, as the code has it: each script parses the manifest itself at most
    once (once in every run that gets to open it and call [tomllib.load]),
    before anything else the trace records; the parsed manifest is never
    changed, by the loop or by anything after it; and the manifest file is
    read a second time, by the framework, when the script hands its path
    to [load_from_toml]. *)
Theorem manifest_parsed_once_never_changed (as_main : bool) (w : World) :
  manifest_discipline (nbfile_bot as_main) w
  /\ manifest_discipline (templates_bot as_main) w
  /\ (forall driver adapters s,
        pyproject (snd (register_loop driver adapters s)) = pyproject s).
Proof.
  unfold manifest_discipline.
  destruct (to_manifest (start w)) as [[[[driver f] doc]|e] s1] eqn:E;
    cbn [fst]; repeat split;
    try (intros driver' adapters s;
         apply (register_loop_quiet driver' adapters s)).
  1-4: destruct (nbfile_bot_shaped as_main _ _ _ _ _ E) as [Sh P];
       destruct (shaped_discipline _ Sh) as (C1 & C2 & C3);
       solve [ lia | now right | exact P | exact C3 ].
  1-4: destruct (templates_bot_shaped as_main _ _ _ _ _ E) as [Sh P];
       destruct (shaped_discipline _ Sh) as (C1 & C2 & C3);
       solve [ lia | now right | exact P | exact C3 ].
  1-4: destruct (nbfile_bot_no_manifest as_main _ _ _ E) as (s' & -> & T & P);
       pose proof (to_manifest_cases w) as Cs; rewrite E in Cs;
       destruct Cs as [Pn Tc]; cbn [snd]; rewrite ?T, ?P;
       destruct Tc as [Tc | Tc]; rewrite ?Tc; cbn;
       solve [ lia | now left | exact Pn | reflexivity
             | right; exists []; split; reflexivity ].
  1-4: destruct (templates_bot_no_manifest as_main _ _ _ E) as (s' & -> & T & P);
       pose proof (to_manifest_cases w) as Cs; rewrite E in Cs;
       destruct Cs as [Pn Tc]; cbn [snd]; rewrite ?T, ?P;
       destruct Tc as [Tc | Tc]; rewrite ?Tc; cbn;
       solve [ lia | now left | exact Pn | reflexivity
             | right; exists []; split; reflexivity ].
Qed.

End BotProps.

(** * The scripts run in the concrete runtime *)

Section Runs.
Import Bot Demo.
Local Open Scope list_scope.

(** A run of each script on a manifest with two adapters, the second of
    which cannot be imported. *)
Example nbfile_bot_run :
  nbfile_bot true (start (world_with (manifest [console; ghost])))
  = (Ok tt,
     mkState (mkWorld (Some (manifest [console; ghost])) ["nonebot.adapters.console"])
       [EvTomlLoad; EvImport (TStr "nonebot.adapters.console");
        EvRegisterCall "nonebot.adapters.console";
        EvRegistered "nonebot.adapters.console";
        EvImport (TStr "nonebot.adapters.ghost");
        EvLogError "Failed to register adapter Ghost: No module named it";
        EvLoadFromToml "pyproject.toml"; EvRun (Some "__mp_main__:app")]
       (Some (manifest [console; ghost]))).
Proof. reflexivity. Qed.

Example templates_bot_run :
  trace (snd (templates_bot false (start (world_with (manifest [console; ghost])))))
  = [EvTomlLoad; EvImport (TStr "nonebot.adapters.console");
     EvRegisterCall "nonebot.adapters.console";
     EvRegistered "nonebot.adapters.console";
     EvImport (TStr "nonebot.adapters.ghost");
     EvLogError "Failed to register adapter Ghost: No module named it";
     EvLoadBuiltinPlugins [TStr "echo"]; EvLoadFromToml "pyproject.toml"].
Proof. reflexivity. Qed.

(** An adapter list that is a string is gone through character by
    character; a character has no ["module_name"], and no ["name"]. *)
Example adapters_as_string :
  fst (register_loop tt (chars "ab") (at_loop (manifest [])))
  = Raise (TypeError "string indices must be integers").
Proof. reflexivity. Qed.

(** [except Exception] lets through what does not derive from
    [Exception]: a module that ends the interpreter when imported ends the
    script, whatever its descriptor carries. *)
Example system_exit_passes_through :
  nbfile_bot true (start (world_with (manifest [quitter; console])))
  = (Raise (Foreign false "SystemExit" "0"),
     mkState (world_with (manifest [quitter; console]))
       [EvTomlLoad; EvImport (TStr "exits")]
       (Some (manifest [quitter; console]))).
Proof. reflexivity. Qed.

(** Three descriptors, one that registers and two that fail and are
    reported: one registration, two log lines, and [load_from_toml] is
    reached. *)
Lemma registration_counts_witness :
  let t := trace (snd (nbfile_bot true
             (start (world_with (manifest [console; ghost; refused]))))) in
  registered t = 1 /\ logged t = 2 /\ reached_load_from_toml t = true.
Proof.
  exact (proj1 (proj2
    (registration_counts (R := runtime) true
       (world_with (manifest [console; ghost; refused])) tt tt
       (manifest [console; ghost; refused])
       (at_loop (manifest [console; ghost; refused]))
       [console; ghost; refused] eq_refl eq_refl eq_refl))).
Defined.

(** C1 as stated fails.  Of the three descriptors [console; nameless;
    ghost] one resolves and registers (N = 3, M = 1), yet no failure is
    logged, not two, and the script ends with [KeyError] before
    [load_from_toml]; and the template, on a manifest without
    ["builtin_plugins"], registers its one adapter and ends with [KeyError]
    at line 24, before [load_from_toml]. *)
Lemma registration_counts_need_name :
  (let items := [console; nameless; ghost] in
   let w := world_with (manifest items) in
   let t := trace (snd (nbfile_bot true (start w))) in
   to_manifest (start w) = (Ok (tt, tt, manifest items), at_loop (manifest items))
   /\ descriptors_of (manifest items) = Ok items
   /\ length items = 3
   /\ successes tt items (at_loop (manifest items)) = 1
   /\ registered t = 1
   /\ logged t = 0
   /\ reached_load_from_toml t = false
   /\ fst (nbfile_bot true (start w)) = Raise (KeyError "name"))
  /\ (let items := [console] in
      let w := world_with (manifest_without_builtin items) in
      let t := trace (snd (templates_bot true (start w))) in
      length items = 1
      /\ successes tt items (at_loop (manifest_without_builtin items)) = 1
      /\ registered t = 1
      /\ logged t = 0
      /\ reached_load_builtin t = false
      /\ reached_load_from_toml t = false
      /\ fst (templates_bot true (start w)) = Raise (KeyError "builtin_plugins")).
Proof. cbv zeta. repeat split; reflexivity. Qed.

Lemma failure_is_logged_witness :
  iteration tt ghost (at_loop (manifest [ghost; console]))
  = (Ok tt,
     mkState (world_with (manifest [ghost; console]))
       [EvTomlLoad; EvImport (TStr "nonebot.adapters.ghost");
        EvLogError "Failed to register adapter Ghost: No module named it"]
       (Some (manifest [ghost; console]))).
Proof.
  exact (proj1
    (failure_is_logged (R := runtime) tt ghost [console]
       (at_loop (manifest [ghost; console]))
       (mkState (world_with (manifest [ghost; console]))
          [EvTomlLoad; EvImport (TStr "nonebot.adapters.ghost")]
          (Some (manifest [ghost; console])))
       (Foreign true "ModuleNotFoundError" "No module named it")
       (TStr "Ghost") eq_refl eq_refl eq_refl)).
Defined.

(** C2 as stated fails.  The module of [nameless] is not found; the error
    is caught, but the log line cannot be built: nothing is logged, the turn
    ends with [KeyError], and [console], next in the list, is never
    registered. *)
Lemma failure_without_name_not_logged :
  let s := at_loop (manifest [nameless; console]) in
  fst (try_body tt nameless s)
    = Raise (Foreign true "ModuleNotFoundError" "No module named it")
  /\ fst (iteration tt nameless s) = Raise (KeyError "name")
  /\ logged (trace (snd (iteration tt nameless s))) = 0
  /\ fst (register_loop tt [nameless; console] s) = Raise (KeyError "name")
  /\ registered (trace (snd (register_loop tt [nameless; console] s))) = 0.
Proof. cbv zeta. repeat split; reflexivity. Qed.

Lemma no_adapter_table_no_registration_witness :
  let w := world_with manifest_without_adapters in
  (fst (nbfile_bot true (start w)) = Raise (KeyError "adapters")
   /\ trace (snd (nbfile_bot true (start w))) = [EvTomlLoad]
   /\ register_calls (trace (snd (nbfile_bot true (start w)))) = 0)
  /\ (fst (templates_bot true (start w)) = Raise (KeyError "adapters")
      /\ trace (snd (templates_bot true (start w))) = [EvTomlLoad]
      /\ register_calls (trace (snd (templates_bot true (start w)))) = 0).
Proof.
  exact (no_adapter_table_no_registration (R := runtime) true
           (world_with manifest_without_adapters) tt tt
           manifest_without_adapters (at_loop manifest_without_adapters)
           (KeyError "adapters") eq_refl eq_refl).
Defined.

Lemma empty_adapter_list_witness :
  let t := trace (snd (templates_bot true (start (world_with (manifest []))))) in
  register_calls t = 0 /\ registered t = 0 /\ logged t = 0
  /\ reached_load_builtin t = true.
Proof.
  destruct (empty_adapter_list (R := runtime) true (world_with (manifest [])) tt tt
              (manifest []) (at_loop (manifest [])) eq_refl eq_refl)
    as (_ & _ & C & Rg & L & B).
  exact (conj C (conj Rg (conj L (B [TStr "echo"] eq_refl)))).
Defined.

(** C7 as stated fails: in a run that completes, the manifest file is
    read twice, once by the script's [tomllib.load] and once by the
    framework's [load_from_toml], which is given the path of the same
    file. *)
Lemma manifest_read_twice :
  let t := trace (snd (nbfile_bot true (start (world_with (manifest [console]))))) in
  fst (nbfile_bot true (start (world_with (manifest [console])))) = Ok tt
  /\ t = [EvTomlLoad; EvImport (TStr "nonebot.adapters.console");
          EvRegisterCall "nonebot.adapters.console";
          EvRegistered "nonebot.adapters.console";
          EvLoadFromToml "pyproject.toml"; EvRun (Some "__mp_main__:app")]
  /\ manifest_reads t = 2.
Proof. cbv zeta. repeat split; reflexivity. Qed.

Lemma nameless_failure_aborts_witness :
  let w := world_with (manifest [console; nameless; ghost]) in
  fst (nbfile_bot true (start w)) = Raise (KeyError "name")
  /\ trace (snd (nbfile_bot true (start w)))
     = [EvTomlLoad; EvImport (TStr "nonebot.adapters.console");
        EvRegisterCall "nonebot.adapters.console";
        EvRegistered "nonebot.adapters.console";
        EvImport (TStr "nonebot.adapters.ghost")].
Proof.
  exact (proj1 (proj2 (proj2
    (nameless_failure_aborts (R := runtime) true
       (world_with (manifest [console; nameless; ghost])) tt tt
       (manifest [console; nameless; ghost])
       (at_loop (manifest [console; nameless; ghost]))
       [console] nameless [ghost]
       (snd (register_loop tt [console]
               (at_loop (manifest [console; nameless; ghost]))))
       (Foreign true "ModuleNotFoundError" "No module named it")
       (snd (try_body tt nameless
               (snd (register_loop tt [console]
                       (at_loop (manifest [console; nameless; ghost]))))))
       [("module_name", TStr "nonebot.adapters.ghost")]
       eq_refl eq_refl eq_refl eq_refl eq_refl eq_refl eq_refl)))).
Defined.

End Runs.

(** * More properties of the loop and of the scripts *)

Section MoreProps.
Import Bot.
Context {R : Runtime}.
Local Open Scope py_scope.
Local Open Scope list_scope.

(** ** When the loop ends normally *)

Lemma iteration_ok_reportable (driver : Driver) (adapter : toml) (s : state) :
  is_ok (fst (iteration driver adapter s)) = reportable driver adapter s.
Proof.
  unfold reportable.
  destruct (try_body driver adapter s) as [[[]|e] s'] eqn:E; cbn [fst].
  - now rewrite (iteration_ok _ _ _ _ E).
  - destruct (is_Exception e) eqn:C.
    + destruct (getitem adapter "name") as [v|e'] eqn:G.
      * now rewrite (iteration_logged _ _ _ _ _ _ E C G).
      * now rewrite (iteration_abort _ _ _ _ _ _ E C G).
    + now rewrite (iteration_uncaught _ _ _ _ _ E C).
Qed.

(** X1: the loop ends normally exactly when each descriptor, met in the
    state the turns before it left, either resolves and registers or fails
    with an error deriving from [Exception] while carrying a ["name"]. *)
Theorem loop_ends_normally_iff_reportable
    (driver : Driver) (adapters : list toml) (s : state) :
  is_ok (fst (register_loop driver adapters s))
  = all_reportable driver adapters s.
Proof.
  revert s. induction adapters as [|adapter rest IH]; intros s.
  - reflexivity.
  - rewrite register_loop_cons. cbn [all_reportable].
    rewrite <- iteration_ok_reportable.
    destruct (iteration driver adapter s) as [[[]|e] s'] eqn:I; cbn [fst snd is_ok].
    + apply IH.
    + reflexivity.
Qed.

(** ** What one turn and the whole loop add to the trace *)

Lemma iteration_accounting (driver : Driver) (adapter : toml) (s : state) :
  exists extra,
    trace (snd (iteration driver adapter s)) = trace s ++ extra
    /\ registered extra <= register_calls extra
    /\ register_calls extra <= imports extra
    /\ imports extra <= 1
    /\ registered extra + logged extra <= 1
    /\ (is_ok (fst (iteration driver adapter s)) = true ->
        registered extra + logged extra = 1).
Proof.
  pose proof (try_body_outcome driver adapter s) as O.
  destruct (try_body driver adapter s) as [r s'] eqn:E. cbn [fst snd] in O.
  destruct O as [e G | name e w G I | name m w1 e w G I A
                | name m w1 cls w2 e w G I A Rg | name m w1 cls w2 w G I A Rg].
  5: { rewrite (iteration_ok _ _ _ _ E). cbn [snd fst trace is_ok].
       eexists; split; [reflexivity|]. cbv. repeat split; lia. }
  all: destruct (is_Exception e) eqn:C;
    [ destruct (getitem adapter "name") as [v|e'] eqn:N;
      [ rewrite (iteration_logged _ _ _ _ _ _ E C N)
      | rewrite (iteration_abort _ _ _ _ _ _ E C N) ]
    | rewrite (iteration_uncaught _ _ _ _ _ E C) ];
    cbn [snd fst trace is_ok].
  all: try (exists []; rewrite app_nil_r; split; [reflexivity|]; cbv;
            repeat split; (lia || discriminate)).
  all: try (rewrite <- app_assoc).
  all: eexists; (split; [reflexivity|]);
    unfold registered, register_calls, imports, logged, count;
    cbn [app filter is_registered is_register_call is_import is_log_error length];
    repeat split; (lia || discriminate || reflexivity).
Qed.

(** X2: whatever the descriptors and however the loop ends, it imports at
    most once per descriptor, calls [register_adapter] only after an import,
    registers only through such a call, and no descriptor is both registered
    and logged; when the loop ends normally every descriptor is accounted
    for: registered or logged, one or the other. *)
Theorem loop_accounting (driver : Driver) (adapters : list toml) (s : state) :
  exists extra,
    trace (snd (register_loop driver adapters s)) = trace s ++ extra
    /\ registered extra <= register_calls extra
    /\ register_calls extra <= imports extra
    /\ imports extra <= length adapters
    /\ registered extra + logged extra <= length adapters
    /\ (is_ok (fst (register_loop driver adapters s)) = true ->
        registered extra + logged extra = length adapters).
Proof.
  revert s. induction adapters as [|adapter rest IH]; intros s.
  - exists []. cbn. rewrite app_nil_r. repeat split; lia.
  - rewrite register_loop_cons.
    destruct (iteration_accounting driver adapter s)
      as (x & T & A1 & A2 & A3 & A4 & A5).
    destruct (iteration driver adapter s) as [[[]|e] s'] eqn:I;
      cbn [fst snd is_ok] in *.
    + destruct (IH s') as (y & T' & B1 & B2 & B3 & B4 & B5).
      exists (x ++ y). rewrite T', T, app_assoc.
      unfold registered, register_calls, imports, logged in *.
      rewrite !count_app. cbn [length].
      split; [reflexivity|]. repeat split; try lia.
      intros Q. specialize (A5 eq_refl). specialize (B5 Q). lia.
    + exists x. cbn [length]. split; [exact T|].
      repeat split; try lia; discriminate.
Qed.

(** X3: once the loop has raised, nothing listed after makes a difference:
    the loop over a longer list ends with the same error in the same state,
    the descriptors after the failing one never looked at. *)
Theorem abort_skips_the_rest
    (driver : Driver) (adapters more : list toml) (s s' : state) e :
  register_loop driver adapters s = (Raise e, s') ->
  register_loop driver (adapters ++ more) s = (Raise e, s').
Proof.
  revert s. induction adapters as [|adapter rest IH]; intros s E.
  - discriminate E.
  - simpl app. rewrite register_loop_cons in E |- *.
    destruct (iteration driver adapter s) as [[[]|e0] s0]; [now apply IH | exact E].
Qed.

(** X4: a descriptor that is a table with a ["name"] and no
    ["module_name"] costs one log line and nothing else: the [KeyError] of
    the lookup is caught and reported under the descriptor's name, nothing
    is imported or registered, the outside world is left as it was, and the
    turn ends normally. *)
Theorem descriptor_without_module_name
    (driver : Driver) (entries : list (string * toml)) (v : toml) (s : state) :
  assoc "module_name" entries = None ->
  assoc "name" entries = Some v ->
  iteration driver (TTable entries) s
  = (Ok tt,
     mkState (world s)
       (trace s ++ [EvLogError
          ("Failed to register adapter " ++ fstr v ++ ": "
           ++ exn_str (KeyError "module_name"))%string])
       (pyproject s)).
Proof.
  intros Nm Nn.
  assert (E : try_body driver (TTable entries) s
              = (Raise (KeyError "module_name"), s)).
  { unfold try_body, bind, eval. cbn [getitem]. now rewrite Nm. }
  assert (G : getitem (TTable entries) "name" = Ok v)
    by (cbn [getitem]; now rewrite Nn).
  rewrite (iteration_logged _ _ _ _ _ _ E eq_refl G). reflexivity.
Qed.

Lemma string_descriptor_aborts (driver : Driver) (x : string) rest (s : state) :
  register_loop driver (TStr x :: rest) s
  = (Raise (TypeError "string indices must be integers"), s).
Proof.
  rewrite register_loop_cons.
  assert (E : try_body driver (TStr x) s
              = (Raise (TypeError "string indices must be integers"), s))
    by reflexivity.
  now rewrite (iteration_abort _ _ _ _ _ _ E eq_refl eq_refl).
Qed.

(** X5: when [tool.nonebot.adapters] is a non-empty table (a table of
    tables rather than an array of tables) or a non-empty string, the loop
    goes through its keys, or its characters; the first of them is a
    string, which has neither ["module_name"] nor ["name"], and each script
    ends there with [TypeError], having imported and registered nothing. *)
Theorem adapters_not_an_array
    (as_main : bool) (w : World) driver f doc s1 (a : toml) :
  to_manifest (start w) = (Ok (driver, f, doc), s1) ->
  adapters_of doc = Ok a ->
  (exists k v entries, a = TTable ((k, v) :: entries))
  \/ (exists c rest, a = TStr (String c rest)) ->
  nbfile_bot as_main (start w)
  = (Raise (TypeError "string indices must be integers"), closed f s1)
  /\ templates_bot as_main (start w)
     = (Raise (TypeError "string indices must be integers"), closed f s1)
  /\ trace (closed f s1) = [EvTomlLoad].
Proof.
  intros E A Sh. destruct (to_manifest_ok _ _ _ _ _ E) as [T _].
  rewrite (nbfile_bot_from_manifest _ _ _ _ _ _ E),
          (templates_bot_from_manifest _ _ _ _ _ _ E).
  unfold descriptors_of. rewrite A.
  destruct Sh as [(k & v & entries & ->) | (c & rest & ->)];
    cbn [iterate map fst chars list_ascii_of_string];
    rewrite string_descriptor_aborts; auto.
Qed.

(** X6: when [tool.nonebot.adapters] is there and cannot be iterated (a
    number, a boolean, a date), the [for] statement raises before its first
    turn: each script ends with that [TypeError], the manifest parsed, the
    file closed and nothing imported or registered. *)
Theorem adapters_not_iterable
    (as_main : bool) (w : World) driver f doc s1 (a : toml) e :
  to_manifest (start w) = (Ok (driver, f, doc), s1) ->
  adapters_of doc = Ok a ->
  iterate a = Raise e ->
  nbfile_bot as_main (start w) = (Raise e, closed f s1)
  /\ templates_bot as_main (start w) = (Raise e, closed f s1)
  /\ trace (closed f s1) = [EvTomlLoad].
Proof.
  intros E A I. destruct (to_manifest_ok _ _ _ _ _ E) as [T _].
  rewrite (nbfile_bot_from_manifest _ _ _ _ _ _ E),
          (templates_bot_from_manifest _ _ _ _ _ _ E).
  unfold descriptors_of. rewrite A, I. auto.
Qed.

(** ** Errors before, in and after the [with] block *)

Lemma extern_run {A} (op : World -> result A * World) (s : state) r w' :
  op (world s) = (r, w') ->
  extern op s = (r, mkState w' (trace s) (pyproject s)).
Proof. intros E. unfold extern. now rewrite E. Qed.

(** X7: when the manifest cannot be opened, each script ends with the error
    of [open], uncaught, having done nothing the trace records: nothing
    parsed, imported, registered or loaded. *)
Theorem manifest_cannot_be_opened
    (as_main : bool) (w w1 w2 w3 : World) (driver : Driver) e :
  nonebot_init w = (Ok tt, w1) ->
  get_driver w1 = (Ok driver, w2) ->
  py_open "pyproject.toml" w2 = (Raise e, w3) ->
  nbfile_bot as_main (start w) = (Raise e, mkState w3 [] None)
  /\ templates_bot as_main (start w) = (Raise e, mkState w3 [] None).
Proof.
  intros I G O.
  assert (Ei := extern_run nonebot_init (start w) _ _ I).
  assert (Eg := extern_run get_driver (mkState w1 [] None) _ _ G).
  assert (Eo := extern_run (py_open "pyproject.toml") (mkState w2 [] None) _ _ O).
  cbn [start world trace pyproject] in Ei, Eg, Eo.
  split; [unfold nbfile_bot | unfold templates_bot];
    rewrite (bind_ok _ _ _ _ _ Ei), (bind_ok _ _ _ _ _ Eg);
    unfold bind at 1; unfold with_open; rewrite Eo; reflexivity.
Qed.

(** X8: when the manifest opens and does not parse, each script ends with
    the error of [tomllib.load], uncaught; the [with] statement has closed
    the file, and nothing was imported, registered or loaded. *)
Theorem manifest_does_not_parse
    (as_main : bool) (w w1 w2 w3 w4 : World) (driver : Driver) (f : FileObj) e :
  nonebot_init w = (Ok tt, w1) ->
  get_driver w1 = (Ok driver, w2) ->
  py_open "pyproject.toml" w2 = (Ok f, w3) ->
  tomllib_load f w3 = (Raise e, w4) ->
  nbfile_bot as_main (start w)
  = (Raise e, mkState (file_close f w4) [EvTomlLoad] None)
  /\ templates_bot as_main (start w)
     = (Raise e, mkState (file_close f w4) [EvTomlLoad] None).
Proof.
  intros I G O L.
  assert (Ei := extern_run nonebot_init (start w) _ _ I).
  assert (Eg := extern_run get_driver (mkState w1 [] None) _ _ G).
  assert (Eo := extern_run (py_open "pyproject.toml") (mkState w2 [] None) _ _ O).
  cbn [start world trace pyproject] in Ei, Eg, Eo.
  assert (Lm : load_manifest f (mkState w3 [] None)
               = (Raise e, mkState w4 [EvTomlLoad] None)).
  { unfold load_manifest, call, bind, emit, extern. cbn [world trace pyproject].
    now rewrite L. }
  split; [unfold nbfile_bot | unfold templates_bot];
    rewrite (bind_ok _ _ _ _ _ Ei), (bind_ok _ _ _ _ _ Eg);
    unfold bind at 1; unfold with_open; rewrite Eo;
    rewrite (bind_raise _ _ _ _ _ Lm); reflexivity.
Qed.

Lemma loop_trace_quiet (w : World) driver f doc s1 items r s2 :
  to_manifest (start w) = (Ok (driver, f, doc), s1) ->
  register_loop driver items s1 = (r, s2) ->
  reached_load_from_toml (trace s2) = false
  /\ reached_load_builtin (trace s2) = false
  /\ existsb is_run (trace s2) = false.
Proof.
  intros E Run. destruct (to_manifest_ok _ _ _ _ _ E) as [T _].
  destruct (register_loop_quiet driver items s1) as (_ & extra & T2 & F).
  rewrite Run in T2. cbn [snd] in T2. rewrite T2, T.
  unfold reached_load_from_toml, reached_load_builtin.
  rewrite !existsb_app. cbn [existsb is_load_from_toml is_load_builtin is_run orb].
  repeat split; apply existsb_none; (eapply Forall_impl; [|exact F]);
    intros []; simpl; tauto.
Qed.

(** X9: any error that leaves the loop (the [KeyError] of a missing
    ["name"], or an exception [except Exception] does not catch) ends each
    script with that very error; the [with] statement closes the manifest
    file on the way out, and neither [load_builtin_plugins] nor
    [load_from_toml] nor [nonebot.run] is called. *)
Theorem loop_error_ends_startup
    (as_main : bool) (w : World) driver f doc s1 items e s2 :
  to_manifest (start w) = (Ok (driver, f, doc), s1) ->
  descriptors_of doc = Ok items ->
  register_loop driver items s1 = (Raise e, s2) ->
  nbfile_bot as_main (start w) = (Raise e, closed f s2)
  /\ templates_bot as_main (start w) = (Raise e, closed f s2)
  /\ reached_load_builtin (trace (closed f s2)) = false
  /\ reached_load_from_toml (trace (closed f s2)) = false
  /\ existsb is_run (trace (closed f s2)) = false.
Proof.
  intros E D Run.
  rewrite (nbfile_bot_from_manifest _ _ _ _ _ _ E),
          (templates_bot_from_manifest _ _ _ _ _ _ E).
  rewrite D, Run. cbn [closed trace].
  destruct (loop_trace_quiet _ _ _ _ _ _ _ _ E Run) as (A & B & C). auto.
Qed.

(** X10: in the template, what follows the loop is not tolerated as an
    adapter failure is: with every adapter dealt with, a manifest from which
    the built-in plugin names cannot be read, or a
    [load_builtin_plugins] that raises, ends the script with that error
    before [load_from_toml]; the call, when made, is made with the file
    still open and is given the names as the manifest lists them. *)
Theorem builtin_plugins_failure_is_fatal
    (as_main : bool) (w : World) driver f doc s1 items s2 :
  to_manifest (start w) = (Ok (driver, f, doc), s1) ->
  descriptors_of doc = Ok items ->
  register_loop driver items s1 = (Ok tt, s2) ->
  (forall e, builtin_plugins_of doc = Raise e ->
     templates_bot as_main (start w) = (Raise e, closed f s2)
     /\ reached_load_from_toml (trace (closed f s2)) = false)
  /\ (forall names e w3,
        builtin_plugins_of doc = Ok names ->
        load_builtin_plugins names (world s2) = (Raise e, w3) ->
        let s3 :=
          mkState (file_close f w3) (trace s2 ++ [EvLoadBuiltinPlugins names])
            (pyproject s2) in
        templates_bot as_main (start w) = (Raise e, s3)
        /\ reached_load_from_toml (trace s3) = false).
Proof.
  intros E D Run.
  destruct (loop_trace_quiet _ _ _ _ _ _ _ _ E Run) as (A & _ & _).
  rewrite (templates_bot_from_manifest _ _ _ _ _ _ E), D, Run.
  split.
  - intros e B. rewrite B. auto.
  - intros names e w3 B L. rewrite B. cbv zeta. rewrite L.
    split; [reflexivity|]. cbn [trace].
    unfold reached_load_from_toml in *. rewrite existsb_app, A. reflexivity.
Qed.

(** ** Starting the server *)

Lemma after_with_trace (as_main : bool) (app : option string) (s : state) :
  let t' := trace (snd (after_with as_main app s)) in
  t' = trace s ++ [EvLoadFromToml "pyproject.toml"]
  \/ (as_main = true
      /\ t' = trace s ++ [EvLoadFromToml "pyproject.toml"; EvRun app]).
Proof.
  unfold after_with, run_if_main, call, bind, extern, emit, ret.
  cbn [world trace pyproject].
  destruct (load_from_toml "pyproject.toml" (world s)) as [[[]|e] w1];
    cbn [snd trace pyproject world]; [|now left].
  destruct as_main; cbn [snd trace pyproject world]; [|now left].
  destruct (nonebot_run app w1) as [[[]|e] w2]; cbn [snd trace];
    right; (split; [reflexivity|]); now rewrite <- app_assoc.
Qed.




(** ** The two scripts side by side *)

Lemma after_with_no_loop_event (as_main : bool) (app : option string) (s : state) :
  filter in_loop (trace (snd (after_with as_main app s)))
  = filter in_loop (trace s).
Proof.
  destruct (after_with_trace as_main app s) as [-> | [_ ->]];
    rewrite filter_app; cbn; now rewrite app_nil_r.
Qed.

(** X12: started in the same world, the two scripts go through the same
    loop: they attempt the same imports and registrations and log the same
    failures, in the same order, whatever each does after the loop and
    whether or not either is run as the main module. *)
Theorem both_scripts_same_loop (main_nbfile main_templates : bool) (w : World) :
  filter in_loop (trace (snd (nbfile_bot main_nbfile (start w))))
  = filter in_loop (trace (snd (templates_bot main_templates (start w)))).
Proof.
  destruct (to_manifest (start w)) as [[[[driver f] doc]|e] s1] eqn:E.
  - rewrite (nbfile_bot_from_manifest _ _ _ _ _ _ E),
            (templates_bot_from_manifest _ _ _ _ _ _ E).
    destruct (descriptors_of doc) as [items|e]; [|reflexivity].
    destruct (register_loop driver items s1) as [[[]|e] s2]; [|reflexivity].
    pose proof (after_with_no_loop_event main_nbfile
                  (Some "__mp_main__:app") (closed f s2)) as An.
    unfold after_with in An. rewrite An. clear An.
    destruct (builtin_plugins_of doc) as [names|e]; [|reflexivity].
    cbv zeta.
    destruct (load_builtin_plugins names (world s2)) as [[[]|e] w3].
    + match goal with |- context [bind ?m ?k ?s] =>
        pose proof (after_with_no_loop_event main_templates None s) as At end.
      unfold after_with in At. rewrite At.
      cbn [closed trace]. rewrite filter_app. cbn. now rewrite app_nil_r.
    + cbn [snd closed trace]. rewrite filter_app. cbn. now rewrite app_nil_r.
  - destruct (nbfile_bot_no_manifest main_nbfile _ _ _ E) as (s' & -> & T & _).
    destruct (templates_bot_no_manifest main_templates _ _ _ E)
      as (s'' & -> & T' & _).
    cbn [snd]. now rewrite T, T'.
Qed.

(** ** The order of the imports *)

Lemma imported_app (t u : list event) :
  imported (t ++ u) = imported t ++ imported u.
Proof. unfold imported. apply flat_map_app. Qed.

Lemma iteration_imports (driver : Driver) (adapter : toml) (s : state) :
  exists extra later,
    trace (snd (iteration driver adapter s)) = trace s ++ extra
    /\ module_names [adapter] = imported extra ++ later
    /\ (is_ok (fst (iteration driver adapter s)) = true -> later = []).
Proof.
  pose proof (try_body_outcome driver adapter s) as O.
  destruct (try_body driver adapter s) as [r s'] eqn:E. cbn [fst snd] in O.
  unfold module_names. cbn [flat_map]. rewrite app_nil_r.
  destruct O as [e G | name e w G I | name m w1 e w G I A
                | name m w1 cls w2 e w G I A Rg | name m w1 cls w2 w G I A Rg];
    rewrite G.
  5: { rewrite (iteration_ok _ _ _ _ E). cbn [snd fst trace].
       eexists; exists []; split; [reflexivity|]. now split. }
  all: destruct (is_Exception e) eqn:C;
    [ destruct (getitem adapter "name") as [v|e'] eqn:N;
      [ rewrite (iteration_logged _ _ _ _ _ _ E C N)
      | rewrite (iteration_abort _ _ _ _ _ _ E C N) ]
    | rewrite (iteration_uncaught _ _ _ _ _ E C) ];
    cbn [snd fst trace is_ok].
  all: try (exists [], []; rewrite app_nil_r; split; [reflexivity|];
            split; [reflexivity | discriminate || reflexivity]).
  all: try (rewrite <- app_assoc).
  all: eexists; exists []; (split; [reflexivity|]); split; reflexivity.
Qed.

(** X13: the loop imports in manifest order, one import for each descriptor
    that has a ["module_name"], none skipped and none repeated: the names
    handed to [import_module] are, in order, the first module names of the
    list, and all of them when the loop ends normally. *)
Theorem imports_in_manifest_order
    (driver : Driver) (adapters : list toml) (s : state) :
  exists extra later,
    trace (snd (register_loop driver adapters s)) = trace s ++ extra
    /\ module_names adapters = imported extra ++ later
    /\ (is_ok (fst (register_loop driver adapters s)) = true -> later = []).
Proof.
  revert s. induction adapters as [|adapter rest IH]; intros s.
  - exists [], []. cbn. rewrite app_nil_r. auto.
  - rewrite register_loop_cons.
    destruct (iteration_imports driver adapter s) as (x & lx & T & Mx & Ox).
    assert (Mn : module_names (adapter :: rest)
                 = module_names [adapter] ++ module_names rest).
    { unfold module_names. cbn [flat_map]. now rewrite app_nil_r. }
    destruct (iteration driver adapter s) as [[[]|e] s'] eqn:I;
      cbn [fst snd is_ok] in *.
    + destruct (IH s') as (y & ly & T' & My & Oy).
      exists (x ++ y), ly. rewrite T', T, app_assoc. split; [reflexivity|].
      rewrite Mn, Mx, My, (Ox eq_refl), app_nil_r, imported_app, app_assoc.
      auto.
    + exists x, (lx ++ module_names rest). split; [exact T|].
      rewrite Mn, Mx, app_assoc. split; [reflexivity | discriminate].
Qed.

End MoreProps.

(** * More on the greeting *)

Section GreetingProps.
Import Hello.

Lemma append_char_inj (c : ascii) (s s' : string) :
  s ++ String c "" = s' ++ String c "" -> s = s'.
Proof.
  revert s'. induction s as [|a s IH]; intros [|a' s'] E; simpl in E.
  - reflexivity.
  - injection E as -> E. destruct s'; discriminate E.
  - injection E as -> E. destruct s; discriminate E.
  - injection E as -> E. f_equal. now apply IH.
Qed.

(** X14: the reply tells what text was extracted, but for one collision:
    two invocations that send the same reply extracted the same plain text,
    unless one extracted nothing and the other the word "World". *)
Theorem reply_determines_text (a b : Message) :
  replies (hello_handler a) = replies (hello_handler b) ->
  extract_plain_text a = extract_plain_text b
  \/ (extract_plain_text a = "" /\ extract_plain_text b = "World")
  \/ (extract_plain_text a = "World" /\ extract_plain_text b = "").
Proof.
  destruct (hello_handler_cases a) as [[Ea ->] | [Na ->]];
    destruct (hello_handler_cases b) as [[Eb ->] | [Nb ->]];
    unfold replies, finish; cbn [fst map]; intros Q.
  - left. congruence.
  - injection Q as Q. right. left. split; [exact Ea|].
    apply append_bang_world. now symmetry.
  - injection Q as Q. right. right. split; [|exact Eb].
    now apply append_bang_world.
  - injection Q as Q. left. now apply (append_char_inj "!"%char).
Qed.

Lemma reply_determines_text_witness :
  extract_plain_text [Text "Bob"]
    = extract_plain_text [Text "B"; Media "face" "1"; Text "ob"]
  \/ (extract_plain_text [Text "Bob"] = ""
      /\ extract_plain_text [Text "B"; Media "face" "1"; Text "ob"] = "World")
  \/ (extract_plain_text [Text "Bob"] = "World"
      /\ extract_plain_text [Text "B"; Media "face" "1"; Text "ob"] = "").
Proof.
  apply (reply_determines_text [Text "Bob"] [Text "B"; Media "face" "1"; Text "ob"]).
  reflexivity.
Defined.

End GreetingProps.

(** * More runs in the concrete runtime *)

Section MoreRuns.
Import Bot Demo.
Local Open Scope list_scope.

Lemma abort_skips_the_rest_witness :
  register_loop tt ([nameless] ++ [console]) (at_loop (manifest [nameless; console]))
  = (Raise (KeyError "name"),
     mkState (world_with (manifest [nameless; console]))
       [EvTomlLoad; EvImport (TStr "nonebot.adapters.ghost")]
       (Some (manifest [nameless; console]))).
Proof.
  exact (abort_skips_the_rest (R := runtime) tt [nameless] [console]
           (at_loop (manifest [nameless; console])) _ _ eq_refl).
Defined.

Lemma descriptor_without_module_name_witness :
  iteration tt moduleless (at_loop (manifest [moduleless]))
  = (Ok tt,
     mkState (world_with (manifest [moduleless]))
       [EvTomlLoad; EvLogError "Failed to register adapter Lost: module_name"]
       (Some (manifest [moduleless]))).
Proof.
  exact (descriptor_without_module_name (R := runtime) tt
           [("name", TStr "Lost")] (TStr "Lost")
           (at_loop (manifest [moduleless])) eq_refl eq_refl).
Defined.

Lemma adapters_not_an_array_witness :
  nbfile_bot true (start (world_with (manifest_with (TTable [("console", console)]))))
  = (Raise (TypeError "string indices must be integers"),
     at_loop (manifest_with (TTable [("console", console)]))).
Proof.
  exact (proj1
    (adapters_not_an_array (R := runtime) true
       (world_with (manifest_with (TTable [("console", console)]))) tt tt
       (manifest_with (TTable [("console", console)]))
       (at_loop (manifest_with (TTable [("console", console)])))
       (TTable [("console", console)]) eq_refl eq_refl
       (or_introl (ex_intro _ "console"
          (ex_intro _ console (ex_intro _ [] eq_refl)))))).
Defined.

Lemma adapters_not_iterable_witness :
  templates_bot true (start (world_with (manifest_with (TInt 5))))
  = (Raise (TypeError "object is not iterable"),
     at_loop (manifest_with (TInt 5))).
Proof.
  exact (proj1 (proj2
    (adapters_not_iterable (R := runtime) true
       (world_with (manifest_with (TInt 5))) tt tt
       (manifest_with (TInt 5)) (at_loop (manifest_with (TInt 5)))
       (TInt 5) (TypeError "object is not iterable")
       eq_refl eq_refl eq_refl))).
Defined.

Lemma manifest_cannot_be_opened_witness :
  nbfile_bot (R := runtime_without_file) true
    (start (R := runtime_without_file) world_unparsed)
  = (Raise (Foreign true "FileNotFoundError" "No such file or directory"),
     mkState (R := runtime_without_file) world_unparsed [] None).
Proof.
  exact (proj1
    (manifest_cannot_be_opened (R := runtime_without_file) true
       world_unparsed world_unparsed world_unparsed world_unparsed tt
       (Foreign true "FileNotFoundError" "No such file or directory")
       eq_refl eq_refl eq_refl)).
Defined.

Lemma manifest_does_not_parse_witness :
  templates_bot true (start world_unparsed)
  = (Raise (Foreign true "tomllib.TOMLDecodeError" "Invalid statement"),
     mkState world_unparsed [EvTomlLoad] None).
Proof.
  exact (proj2
    (manifest_does_not_parse (R := runtime) true
       world_unparsed world_unparsed world_unparsed world_unparsed world_unparsed
       tt tt (Foreign true "tomllib.TOMLDecodeError" "Invalid statement")
       eq_refl eq_refl eq_refl eq_refl)).
Defined.

Lemma loop_error_ends_startup_witness :
  nbfile_bot true (start (world_with (manifest [quitter; console])))
  = (Raise (Foreign false "SystemExit" "0"),
     mkState (world_with (manifest [quitter; console]))
       [EvTomlLoad; EvImport (TStr "exits")]
       (Some (manifest [quitter; console]))).
Proof.
  exact (proj1
    (loop_error_ends_startup (R := runtime) true
       (world_with (manifest [quitter; console])) tt tt
       (manifest [quitter; console]) (at_loop (manifest [quitter; console]))
       [quitter; console] (Foreign false "SystemExit" "0")
       (mkState (world_with (manifest [quitter; console]))
          [EvTomlLoad; EvImport (TStr "exits")]
          (Some (manifest [quitter; console])))
       eq_refl eq_refl eq_refl)).
Defined.

Lemma builtin_plugins_failure_is_fatal_witness :
  templates_bot true (start (world_with (manifest_without_builtin [console])))
  = (Raise (KeyError "builtin_plugins"),
     snd (register_loop tt [console]
            (at_loop (manifest_without_builtin [console])))).
Proof.
  exact (proj1 (proj1
    (builtin_plugins_failure_is_fatal (R := runtime) true
       (world_with (manifest_without_builtin [console])) tt tt
       (manifest_without_builtin [console])
       (at_loop (manifest_without_builtin [console])) [console]
       (snd (register_loop tt [console]
               (at_loop (manifest_without_builtin [console]))))
       eq_refl eq_refl eq_refl)
    (KeyError "builtin_plugins") eq_refl)).
Defined.

End MoreRuns.
